(** * Inventory ledger and daily snapshot maintenance

    A shallow embedding of the database side of the inventory tracking
    system: the tables [products], [inventory_history] and
    [daily_inventory_snapshots] with their constraints, the row trigger
    [products_quantity_change] running [log_inventory_change] after every
    UPDATE of a product, and the procedure [update_daily_snapshot].

    The functions embedded are the ones in force once the migrations have
    been applied in order: "Create Inventory Tracking System" creates the
    tables and the trigger, "Add Consumption Tracking to Inventory" replaces
    both function bodies.  The older bodies, which the consolidated schema
    file still carries, are embedded in the module [Consolidated] below. *)

From stdpp Require Import gmap strings list pretty.
From Stdlib Require Import ZArith Lia Ascii.

Local Open Scope string_scope.
Local Open Scope list_scope.
Local Open Scope Z_scope.

(** ** Values *)

(** [uuid] keys are opaque identifiers; [date] counts days. *)
Definition uuid := N.
Definition date := Z.

(** PostgreSQL's [integer] is a 32 bit signed number whose operators raise
    an error, instead of wrapping around, when the result does not fit. *)
Definition int4_min : Z := -2147483648.
Definition int4_max : Z := 2147483647.

Definition int4 (z : Z) : bool := (int4_min <=? z) && (z <=? int4_max).

Inductive sql_error : Set :=
| numeric_value_out_of_range
| foreign_key_violation
| check_violation
| not_null_violation
| unique_violation
| insufficient_privilege.

Inductive result (A : Type) : Type :=
| Ok (a : A)
| Err (e : sql_error).

Arguments Ok {A} a.
Arguments Err {A} e.

Definition bind {A B : Type} (c : result A) (k : A → result B) : result B :=
  match c with
  | Ok a => k a
  | Err e => Err e
  end.

Notation "'let!' x ':=' c 'in' k" := (bind c (fun x => k))
  (at level 10, x name, c at level 100, k at level 200).

(** [integer - integer] *)
Definition int4mi (a b : Z) : result Z :=
  if int4 (a - b) then Ok (a - b) else Err numeric_value_out_of_range.

(** [ABS(integer)] *)
Definition int4abs (a : Z) : result Z :=
  if a =? int4_min then Err numeric_value_out_of_range else Ok (Z.abs a).

(** ** Tables *)

(** The columns of [products] the inventory logic reads; [name] stands for
    the columns an UPDATE may change without touching the stock. *)
Record product : Set := {
  name : string;
  quantity : Z;
  reorder_level : Z
}.

Record inventory_history_row : Set := {
  ih_product_id : uuid;
  activity_type : string;
  quantity_before : Z;
  quantity_change : Z;
  quantity_after : Z;
  reference_type : option string;
  reference_id : option uuid;
  notes : option string;
  created_by : option uuid
}.

Record daily_inventory_snapshot : Set := {
  ds_product_id : uuid;
  snapshot_date : date;
  opening_stock : Z;
  purchases : Z;
  sales : Z;
  adjustments : Z;
  closing_stock : Z;
  max_stock : Z
}.

(** [products] is keyed by its primary key.  The two derived tables are
    kept as lists in the order in which their rows were inserted; for
    [daily_inventory_snapshots] that lets the UNIQUE constraint be checked by
    the insert rather than assumed.  The column [created_at] of
    [inventory_history], which need not follow that order, is modelled with
    the transactions further down. *)
Record database : Type := {
  products : gmap uuid product;
  inventory_history : list inventory_history_row;
  daily_inventory_snapshots : list daily_inventory_snapshot
}.

Definition empty_database : database :=
  {| products := ∅; inventory_history := []; daily_inventory_snapshots := [] |}.

(** The ambient values the functions read: [CURRENT_DATE] and [auth.uid()]. *)
Record session : Set := {
  CURRENT_DATE : date;
  auth_uid : option uuid
}.

(** *** inventory_history *)

(** [CHECK (activity_type IN (...))], as re-created by the consumption
    migration. *)
Definition inventory_history_activity_type_check (t : string) : bool :=
  String.eqb t "opening_stock" || String.eqb t "purchase" || String.eqb t "sale"
  || String.eqb t "consumption" || String.eqb t "adjustment"
  || String.eqb t "daily_snapshot".

(** [CHECK (reference_type IN (...))]; a NULL passes a CHECK. *)
Definition inventory_history_reference_type_check (t : option string) : bool :=
  match t with
  | None => true
  | Some t =>
      String.eqb t "purchase_order" || String.eqb t "invoice"
      || String.eqb t "manual" || String.eqb t "system"
  end.

(** [INSERT INTO inventory_history ... VALUES ...] as the trigger issues it:
    the two CHECK constraints and the foreign key to [products].  The
    foreign key of [created_by] to [auth.users] is left to
    [INSERT_INTO_inventory_history] below; the trigger writes [auth.uid()]
    there, the user the session is authenticated as, or NULL. *)
Definition insert_inventory_history (r : inventory_history_row) (db : database)
  : result database :=
  if negb (inventory_history_activity_type_check (activity_type r)) then
    Err check_violation
  else if negb (inventory_history_reference_type_check (reference_type r)) then
    Err check_violation
  else
    match products db !! ih_product_id r with
    | None => Err foreign_key_violation
    | Some _ =>
        Ok {| products := products db;
              inventory_history := inventory_history db ++ [r];
              daily_inventory_snapshots := daily_inventory_snapshots db |}
    end.

(** [created_by uuid REFERENCES auth.users(id)]; a NULL references
    nothing. *)
Definition created_by_exists (auth_users : gset uuid) (r : inventory_history_row)
  : bool :=
  match created_by r with
  | None => true
  | Some u => bool_decide (u ∈ auth_users)
  end.

(** The roles a client statement runs under. *)
Inductive role : Set := anon | authenticated.

(** [INSERT INTO inventory_history] sent by a client, with the policy and
    every constraint of the table.  The one INSERT policy, "Authenticated
    users can create inventory history", is [TO authenticated WITH CHECK
    (true)]: it admits every row of that role, and no policy admits a row of
    another.  Then come the CHECK constraints, then the two foreign keys.
    No policy and no constraint reads the three quantities. *)
Definition INSERT_INTO_inventory_history (auth_users : gset uuid)
    (as_role : role) (r : inventory_history_row) (db : database)
  : result database :=
  match as_role with
  | anon => Err insufficient_privilege
  | authenticated =>
      if negb (inventory_history_activity_type_check (activity_type r)) then
        Err check_violation
      else if negb (inventory_history_reference_type_check (reference_type r)) then
        Err check_violation
      else
        match products db !! ih_product_id r with
        | None => Err foreign_key_violation
        | Some _ =>
            if created_by_exists auth_users r then
              Ok {| products := products db;
                    inventory_history := inventory_history db ++ [r];
                    daily_inventory_snapshots := daily_inventory_snapshots db |}
            else Err foreign_key_violation
        end
  end.

(** *** daily_inventory_snapshots *)

(** [WHERE product_id = p AND snapshot_date = d] *)
Definition snapshot_matches (p : uuid) (d : date) (r : daily_inventory_snapshot)
  : bool :=
  (ds_product_id r =? p)%N && (snapshot_date r =? d).

(** [INSERT INTO daily_inventory_snapshots]: [UNIQUE(product_id,
    snapshot_date)] and the foreign key to [products]. *)
Definition insert_daily_inventory_snapshot (r : daily_inventory_snapshot)
    (db : database) : result database :=
  if existsb (snapshot_matches (ds_product_id r) (snapshot_date r))
       (daily_inventory_snapshots db) then
    Err unique_violation
  else
    match products db !! ds_product_id r with
    | None => Err foreign_key_violation
    | Some _ =>
        Ok {| products := products db;
              inventory_history := inventory_history db;
              daily_inventory_snapshots := daily_inventory_snapshots db ++ [r] |}
    end.

(** ** update_daily_snapshot *)

(** The SET list of the UPDATE branch, applied to one row; [q] is the value
    of [(SELECT quantity FROM products WHERE id = p_product_id)]. *)
Definition update_snapshot_row (p_activity_type : string) (p_quantity q : Z)
    (r : daily_inventory_snapshot) : daily_inventory_snapshot :=
  {| ds_product_id := ds_product_id r;
     snapshot_date := snapshot_date r;
     opening_stock := opening_stock r;
     purchases :=
       if String.eqb p_activity_type "purchase"
       then purchases r + p_quantity else purchases r;
     sales :=
       if String.eqb p_activity_type "sale" || String.eqb p_activity_type "consumption"
       then sales r + p_quantity else sales r;
     adjustments :=
       if String.eqb p_activity_type "adjustment"
       then adjustments r + p_quantity else adjustments r;
     closing_stock := q;
     max_stock := Z.max (max_stock r) q |}.

(** The row the INSERT branch selects from the product row.  [quantity] is
    NOT NULL, so that [COALESCE(quantity, 0)] is the quantity itself. *)
Definition new_snapshot_row (p_product_id : uuid) (v_today : date)
    (p_activity_type : string) (p_quantity : Z) (pr : product)
  : daily_inventory_snapshot :=
  {| ds_product_id := p_product_id;
     snapshot_date := v_today;
     opening_stock := quantity pr;
     purchases := if String.eqb p_activity_type "purchase" then p_quantity else 0;
     sales :=
       if String.eqb p_activity_type "sale" || String.eqb p_activity_type "consumption"
       then p_quantity else 0;
     adjustments := if String.eqb p_activity_type "adjustment" then p_quantity else 0;
     closing_stock := quantity pr;
     max_stock := quantity pr |}.

(** The IF statement of the procedure, for a given value of
    [v_snapshot_exists].  In the UPDATE branch a missing product makes the
    sub-select NULL, which [closing_stock NOT NULL] refuses for every row the
    WHERE clause selects; in the INSERT branch a missing product makes the
    SELECT empty, so that nothing is inserted. *)
Definition update_daily_snapshot_branches (v_snapshot_exists : bool)
    (v_today : date) (p_product_id : uuid) (p_activity_type : string)
    (p_quantity : Z) (db : database) : result database :=
  if v_snapshot_exists then
    match products db !! p_product_id with
    | Some pr =>
        Ok {| products := products db;
              inventory_history := inventory_history db;
              daily_inventory_snapshots :=
                map (fun r =>
                       if snapshot_matches p_product_id v_today r
                       then update_snapshot_row p_activity_type p_quantity (quantity pr) r
                       else r)
                    (daily_inventory_snapshots db) |}
    | None =>
        if existsb (snapshot_matches p_product_id v_today)
             (daily_inventory_snapshots db)
        then Err not_null_violation
        else Ok db
    end
  else
    match products db !! p_product_id with
    | Some pr =>
        insert_daily_inventory_snapshot
          (new_snapshot_row p_product_id v_today p_activity_type p_quantity pr) db
    | None => Ok db
    end.

Definition update_daily_snapshot (s : session) (p_product_id : uuid)
    (p_activity_type : string) (p_quantity : Z) (db : database)
  : result database :=
  let v_today := CURRENT_DATE s in
  let v_snapshot_exists :=
    existsb (snapshot_matches p_product_id v_today) (daily_inventory_snapshots db) in
  update_daily_snapshot_branches v_snapshot_exists v_today
    p_product_id p_activity_type p_quantity db.

(** ** log_inventory_change *)

Inductive trigger_op : Set := TG_INSERT | TG_UPDATE | TG_DELETE.

Definition is_update (op : trigger_op) : bool :=
  match op with TG_UPDATE => true | _ => false end.

(** The trigger function, run for the row [id] with its OLD and NEW images
    on a database that already holds NEW (the trigger is an AFTER trigger).
    An error aborts the statement that fired it. *)
Definition log_inventory_change (s : session) (TG_OP : trigger_op) (id : uuid)
    (OLD NEW : product) (db : database) : result database :=
  if is_update TG_OP && negb (quantity OLD =? quantity NEW) then
    let '(v_activity_type, v_notes) :=
      if quantity NEW <? quantity OLD
      then ("consumption", "Manual stock consumption/usage")
      else ("adjustment", "Manual stock adjustment") in
    let! change := int4mi (quantity NEW) (quantity OLD) in
    let! db1 :=
      insert_inventory_history
        {| ih_product_id := id;
           activity_type := v_activity_type;
           quantity_before := quantity OLD;
           quantity_change := change;
           quantity_after := quantity NEW;
           reference_type := Some "manual";
           reference_id := None;
           notes := Some v_notes;
           created_by := auth_uid s |} db in
    let! magnitude := bind (int4mi (quantity NEW) (quantity OLD)) int4abs in
    update_daily_snapshot s id v_activity_type magnitude db1
  else Ok db.

(** ** Statements on products *)

(** The writes a client can issue against [products].  An UPDATE names the
    row by its primary key and carries the complete new image of the row. *)
Inductive statement : Set :=
| INSERT_INTO_products (id : uuid) (row : product)
| UPDATE_products (id : uuid) (NEW : product)
| DELETE_FROM_products (id : uuid).

Definition with_products (m : gmap uuid product) (db : database) : database :=
  {| products := m;
     inventory_history := inventory_history db;
     daily_inventory_snapshots := daily_inventory_snapshots db |}.

(** One statement with the triggers it fires.  Only UPDATE has a trigger
    ([products_quantity_change], AFTER UPDATE, FOR EACH ROW); an UPDATE whose
    WHERE clause selects no row fires nothing.  Deleting a product removes
    its ledger entries and its snapshots (ON DELETE CASCADE). *)
Definition exec_statement (s : session) (st : statement) (db : database)
  : result database :=
  match st with
  | INSERT_INTO_products id row =>
      if negb (int4 (quantity row) && int4 (reorder_level row)) then
        Err numeric_value_out_of_range
      else
        match products db !! id with
        | Some _ => Err unique_violation
        | None => Ok (with_products (<[id := row]> (products db)) db)
        end
  | UPDATE_products id NEW =>
      match products db !! id with
      | None => Ok db
      | Some OLD =>
          if negb (int4 (quantity NEW) && int4 (reorder_level NEW)) then
            Err numeric_value_out_of_range
          else
            log_inventory_change s TG_UPDATE id OLD NEW
              (with_products (<[id := NEW]> (products db)) db)
      end
  | DELETE_FROM_products id =>
      Ok {| products := delete id (products db);
            inventory_history :=
              List.filter (fun r => negb (ih_product_id r =? id)%N)
                (inventory_history db);
            daily_inventory_snapshots :=
              List.filter (fun r => negb (ds_product_id r =? id)%N)
                (daily_inventory_snapshots db) |}
  end.

(** A statement runs in its own transaction: an error rolls every effect
    back, the trigger's included. *)
Definition commit (s : session) (st : statement) (db : database) : database :=
  match exec_statement s st db with
  | Ok db' => db'
  | Err _ => db
  end.

(** The databases that arise from the empty one by committed statements,
    with a calendar that only moves forward. *)
Inductive reachable : date → database → Prop :=
| reachable_empty d : reachable d empty_database
| reachable_next_day d d' db : reachable d db → d ≤ d' → reachable d' db
| reachable_commit d u st db :
    reachable d db →
    reachable d (commit {| CURRENT_DATE := d; auth_uid := u |} st db).

(** ** Queries *)

(** [SELECT * FROM inventory_history WHERE product_id = p], the rows in the
    order in which they were inserted. *)
Definition entries_of (p : uuid) (db : database) : list inventory_history_row :=
  List.filter (fun r => (ih_product_id r =? p)%N) (inventory_history db).

(** [SELECT * FROM daily_inventory_snapshots WHERE product_id = p AND
    snapshot_date = d] *)
Definition snapshots_of (p : uuid) (d : date) (db : database)
  : list daily_inventory_snapshot :=
  List.filter (snapshot_matches p d) (daily_inventory_snapshots db).

(** The snapshot of product [p] for day [d], as a reader fetching the first
    matching row sees it. *)
Definition snapshot_for (p : uuid) (d : date) (db : database)
  : option daily_inventory_snapshot :=
  List.find (snapshot_matches p d) (daily_inventory_snapshots db).

Definition snapshot_key (r : daily_inventory_snapshot) : uuid * date :=
  (ds_product_id r, snapshot_date r).

(** Several statements committed one after the other in the same session. *)
Definition commit_all (s : session) (sts : list statement) (db : database)
  : database :=
  fold_left (fun db st => commit s st db) sts db.

(** Statements committed one after the other, each in its own session. *)
Definition commit_each (steps : list (session * statement)) (db : database)
  : database :=
  fold_left (fun db step => commit (fst step) (snd step) db) steps db.

(** ** Transactions and created_at

    [created_at timestamptz DEFAULT now()]: the trigger does not set the
    column, so that a ledger row carries the time at which the transaction
    that wrote it started.  A client statement is a transaction of its own;
    the transactions below stand in the order in which they updated the
    table, which is not necessarily the order in which they started. *)

Record stamped_entry : Set := {
  created_at : Z;
  entry : inventory_history_row
}.

Record transaction : Set := {
  started : Z;
  session_of : session;
  statement_of : statement
}.

(** The database with the ledger rows under their [created_at].  The rows
    a statement has added are those past the former length of the table;
    a DELETE of a product removes its rows (ON DELETE CASCADE). *)
Definition commit_transaction (t : transaction)
    (w : database * list stamped_entry) : database * list stamped_entry :=
  let db := fst w in
  let db' := commit (session_of t) (statement_of t) db in
  (db',
   match statement_of t with
   | DELETE_FROM_products id =>
       List.filter (fun e => negb (ih_product_id (entry e) =? id)%N) (snd w)
   | _ =>
       snd w
       ++ map (fun r => {| created_at := started t; entry := r |})
            (drop (length (inventory_history db)) (inventory_history db'))
   end).

Definition run_transactions (ts : list transaction)
  : database * list stamped_entry :=
  fold_left (fun w t => commit_transaction t w) ts (empty_database, []).

(** The ledger rows of a product in the order in which they were written. *)
Definition written_for (p : uuid) (w : database * list stamped_entry)
  : list stamped_entry :=
  List.filter (fun e => (ih_product_id (entry e) =? p)%N) (snd w).

(** [ORDER BY created_at].  Rows of equal [created_at], whose order the
    database leaves open, stay in the order in which they were written. *)
Fixpoint insert_by_created_at (e : stamped_entry) (l : list stamped_entry)
  : list stamped_entry :=
  match l with
  | [] => [e]
  | x :: l' =>
      if created_at e <=? created_at x then e :: l
      else x :: insert_by_created_at e l'
  end.

Definition order_by_created_at (l : list stamped_entry) : list stamped_entry :=
  foldr insert_by_created_at [] l.

(** [SELECT * FROM inventory_history WHERE product_id = p ORDER BY
    created_at], the query of the inventory track screen (which reads it in
    descending order). *)
Definition ledger_of (p : uuid) (w : database * list stamped_entry)
  : list stamped_entry :=
  order_by_created_at (written_for p w).

(** Each row has a [created_at] below that of the row written next. *)
Fixpoint created_at_increasing (l : list stamped_entry) : bool :=
  match l with
  | a :: l' =>
      match l' with
      | b :: _ => (created_at a <? created_at b) && created_at_increasing l'
      | [] => true
      end
  | [] => true
  end.

(** ** The function bodies of the consolidated schema file

    [COMPLETE_DATABASE_SCHEMA.sql] lists 'consumption' among the activity
    types but still defines the two functions as the first inventory
    migration did: every change is logged as an 'adjustment', the snapshot
    procedure is not called, and only 'sale' feeds the sales column. *)
Module Consolidated.

Definition log_inventory_change (s : session) (TG_OP : trigger_op) (id : uuid)
    (OLD NEW : product) (db : database) : result database :=
  if is_update TG_OP && negb (quantity OLD =? quantity NEW) then
    let! change := int4mi (quantity NEW) (quantity OLD) in
    insert_inventory_history
      {| ih_product_id := id;
         activity_type := "adjustment";
         quantity_before := quantity OLD;
         quantity_change := change;
         quantity_after := quantity NEW;
         reference_type := Some "manual";
         reference_id := None;
         notes := Some "Stock level updated";
         created_by := auth_uid s |} db
  else Ok db.

Definition update_snapshot_row (p_activity_type : string) (p_quantity q : Z)
    (r : daily_inventory_snapshot) : daily_inventory_snapshot :=
  {| ds_product_id := ds_product_id r;
     snapshot_date := snapshot_date r;
     opening_stock := opening_stock r;
     purchases :=
       if String.eqb p_activity_type "purchase"
       then purchases r + p_quantity else purchases r;
     sales :=
       if String.eqb p_activity_type "sale"
       then sales r + p_quantity else sales r;
     adjustments :=
       if String.eqb p_activity_type "adjustment"
       then adjustments r + p_quantity else adjustments r;
     closing_stock := q;
     max_stock := Z.max (max_stock r) q |}.

End Consolidated.


(** ** Specification-side definitions *)

(** The classifier as the specification words it: a decrease is a
    consumption, an increase an adjustment, an unchanged quantity is not an
    event. *)
Definition classify (oldQty newQty : Z) : option string :=
  if newQty <? oldQty then Some "consumption"
  else if oldQty <? newQty then Some "adjustment"
  else None.

(** The routing table of the specification: each activity category with the
    cumulative column it feeds, if any. *)
Inductive bucket : Set := Purchases | Sales | Adjustments.

Definition routing_table : list (string * option bucket) :=
  [ ("purchase", Some Purchases);
    ("sale", Some Sales);
    ("consumption", Some Sales);
    ("adjustment", Some Adjustments);
    ("opening_stock", None);
    ("daily_snapshot", None) ].

Definition bucket_eqb (a b : bucket) : bool :=
  match a, b with
  | Purchases, Purchases | Sales, Sales | Adjustments, Adjustments => true
  | _, _ => false
  end.

(** What a magnitude [m] routed to [target] adds to the column [col]. *)
Definition routed (target : option bucket) (col : bucket) (m : Z) : Z :=
  match target with
  | Some b => if bucket_eqb b col then m else 0
  | None => 0
  end.

(** ** Concurrent callers of update_daily_snapshot

    The procedure reads [v_snapshot_exists] in one statement and acts on it
    in another, so that under READ COMMITTED other callers may commit in
    between.  A caller is modelled by its arguments and by the flag it has
    read, if it has got that far; a schedule names, step by step, the caller
    that moves.  A caller whose write raises an error is rolled back and
    leaves. *)
Record caller : Set := {
  c_product_id : uuid;
  c_activity_type : string;
  c_quantity : Z;
  c_snapshot_exists : option bool
}.

Definition caller_step (v_today : date) (c : caller) (db : database)
  : database * option caller :=
  match c_snapshot_exists c with
  | None =>
      (db,
       Some {| c_product_id := c_product_id c;
               c_activity_type := c_activity_type c;
               c_quantity := c_quantity c;
               c_snapshot_exists :=
                 Some (existsb (snapshot_matches (c_product_id c) v_today)
                         (daily_inventory_snapshots db)) |})
  | Some flag =>
      match update_daily_snapshot_branches flag v_today (c_product_id c)
              (c_activity_type c) (c_quantity c) db with
      | Ok db' => (db', None)
      | Err _ => (db, None)
      end
  end.

Fixpoint run_schedule (v_today : date) (schedule : list nat)
    (db : database) (callers : list (option caller))
  : database * list (option caller) :=
  match schedule with
  | [] => (db, callers)
  | i :: schedule' =>
      match callers !! i with
      | Some (Some c) =>
          let '(db', c') := caller_step v_today c db in
          run_schedule v_today schedule' db' (<[i := c']> callers)
      | _ => run_schedule v_today schedule' db callers
      end
  end.

(** ** Closed forms of the two functions

    The effect of the procedure and of the trigger written as plain functions
    on rows; the lemmas below show that the embedded code computes them. *)

(** The row function the UPDATE branch maps over the table. *)
Definition touch (p : uuid) (d : date) (t : string) (m q : Z)
    (r : daily_inventory_snapshot) : daily_inventory_snapshot :=
  if snapshot_matches p d r then update_snapshot_row t m q r else r.

(** Both branches at once: what a call for an existing product makes of
    the snapshot table. *)
Definition upsert_rows (d : date) (p : uuid) (t : string) (m : Z) (pr : product)
    (rows : list daily_inventory_snapshot) : list daily_inventory_snapshot :=
  if existsb (snapshot_matches p d) rows
  then map (touch p d t m (quantity pr)) rows
  else rows ++ [new_snapshot_row p d t m pr].

(** The category and the note the trigger chooses. *)
Definition chosen (OLD NEW : product) : string * string :=
  if quantity NEW <? quantity OLD
  then ("consumption", "Manual stock consumption/usage")
  else ("adjustment", "Manual stock adjustment").

(** The ledger row the trigger inserts. *)
Definition logged (s : session) (id : uuid) (OLD NEW : product)
  : inventory_history_row :=
  {| ih_product_id := id;
     activity_type := fst (chosen OLD NEW);
     quantity_before := quantity OLD;
     quantity_change := quantity NEW - quantity OLD;
     quantity_after := quantity NEW;
     reference_type := Some "manual";
     reference_id := None;
     notes := Some (snd (chosen OLD NEW));
     created_by := auth_uid s |}.

Definition with_entry (e : inventory_history_row) (db : database) : database :=
  {| products := products db;
     inventory_history := inventory_history db ++ [e];
     daily_inventory_snapshots := daily_inventory_snapshots db |}.

(** [st] deletes the product [p]. *)
Definition deletes (p : uuid) (st : statement) : bool :=
  match st with
  | DELETE_FROM_products id => (id =? p)%N
  | _ => false
  end.

(** ** Invariants *)

(** No two snapshot rows share product and date. *)
Definition unique_snapshots (db : database) : Prop :=
  NoDup (map snapshot_key (daily_inventory_snapshots db)).

(** No snapshot is dated after day [d], and those of day [d] close at the
    quantity their product holds. *)
Definition closing_fresh (d : date) (db : database) : Prop :=
  ∀ r, r ∈ daily_inventory_snapshots db →
       snapshot_date r ≤ d
       ∧ (snapshot_date r = d →
          quantity <$> products db !! ds_product_id r = Some (closing_stock r)).

(** Consecutive entries of a list of ledger rows fit together. *)
Definition continuous (l : list inventory_history_row) : Prop :=
  ∀ (i : nat) e1 e2,
    l !! i = Some e1 → l !! S i = Some e2 →
    quantity_before e2 = quantity_after e1.

(** Every entry adds up; the entries of each product are continuous, and
    the last of them ends at the quantity the product holds. *)
Definition ledger_consistent (db : database) : Prop :=
  (∀ e, e ∈ inventory_history db →
        quantity_after e = quantity_before e + quantity_change e)
  ∧ ∀ p,
      continuous (entries_of p db)
      ∧ ∀ e, last (entries_of p db) = Some e →
             quantity <$> products db !! p = Some (quantity_after e).

(** ** A worked day

    The scenarios of the specification: a product stocked at 100 on day 10,
    a receipt of 20 units, an invoice for 30 units, and two manual edits,
    each of them an UPDATE of the product row. *)

Definition flour : uuid := 1%N.

Definition clerk : session := {| CURRENT_DATE := 10; auth_uid := Some 7%N |}.

Definition stocked (q : Z) : product :=
  {| name := "flour"; quantity := q; reorder_level := 10 |}.

Definition day_start : database :=
  commit clerk (INSERT_INTO_products flour (stocked 100)) empty_database.

Definition after_receipt : database :=
  commit clerk (UPDATE_products flour (stocked 120)) day_start.

Definition after_invoice : database :=
  commit clerk (UPDATE_products flour (stocked 90)) after_receipt.

Definition after_edits : database :=
  commit_all clerk
    [UPDATE_products flour (stocked 85); UPDATE_products flour (stocked 95)]
    after_invoice.

(** Three transactions on the product; in [overlapping_writers] the one
    that updates the product last has started before the other. *)
Definition successive_writers : list transaction :=
  [ {| started := 0; session_of := clerk;
       statement_of := INSERT_INTO_products flour (stocked 100) |};
    {| started := 1; session_of := clerk;
       statement_of := UPDATE_products flour (stocked 90) |};
    {| started := 2; session_of := clerk;
       statement_of := UPDATE_products flour (stocked 80) |} ].

Definition overlapping_writers : list transaction :=
  [ {| started := 0; session_of := clerk;
       statement_of := INSERT_INTO_products flour (stocked 100) |};
    {| started := 2; session_of := clerk;
       statement_of := UPDATE_products flour (stocked 90) |};
    {| started := 1; session_of := clerk;
       statement_of := UPDATE_products flour (stocked 80) |} ].




(** Scenario E of the specification: two purchases of 5 and 3 units, called
    concurrently on a day without a snapshot. *)
Definition purchase_of (m : Z) : caller :=
  {| c_product_id := flour; c_activity_type := "purchase"; c_quantity := m;
     c_snapshot_exists := None |}.

(** ** Further invariants of the trigger path *)

(** The sum of the signed changes of a list of ledger rows. *)
Definition total_change (l : list inventory_history_row) : Z :=
  foldr (fun e acc => quantity_change e + acc) 0 l.

(** The shape of a row written by the trigger: a change that is not zero,
    the category its sign selects, the reference 'manual' without an id. *)
Definition trigger_written (e : inventory_history_row) : Prop :=
  quantity_change e ≠ 0
  ∧ activity_type e
    = (if quantity_change e <? 0 then "consumption" else "adjustment")
  ∧ reference_type e = Some "manual"
  ∧ reference_id e = None.

(** Every row of the two derived tables belongs to an existing product. *)
Definition references_hold (db : database) : Prop :=
  (∀ e, e ∈ inventory_history db → is_Some (products db !! ih_product_id e))
  ∧ (∀ r, r ∈ daily_inventory_snapshots db →
          is_Some (products db !! ds_product_id r)).

(** What the trigger path makes of the columns of a snapshot row. *)
Definition snapshot_shape (r : daily_inventory_snapshot) : Prop :=
  purchases r = 0
  ∧ 0 ≤ sales r
  ∧ 0 ≤ adjustments r
  ∧ 0 < sales r + adjustments r
  ∧ opening_stock r ≤ max_stock r
  ∧ closing_stock r ≤ max_stock r.

(** The quantity a snapshot row implies for the start of its day. *)
Definition day_start_quantity (r : daily_inventory_snapshot) : Z :=
  closing_stock r - adjustments r + sales r.

(** ** Kitchen order tickets

    The table [kots] of the KOT migration with its constraints and its
    row-level security policies, the CHECK on [payment_method] a later
    migration adds, the function [generate_kot_number], and the INSERT and
    DELETE statements on the table.  The columns kept are those a
    constraint, a policy or the numbering reads; the texts without a
    constraint, the two timestamps and the three amounts of a split payment
    are left to their defaults. *)

Record kot : Set := {
  kot_id : uuid;
  kot_number : string;
  order_type : string;
  table_number : option string;
  status : string;
  user_id : uuid;
  invoice_id : option uuid;
  payment_method : option string
}.

(** The errors an INSERT INTO kots can raise, by the name of the policy or
    constraint that raises them. *)
Inductive kots_error : Set :=
| row_level_security_violation
| kots_order_type_check
| kots_payment_method_check
| kots_status_check
| table_number_required_for_dine_in
| kots_pkey
| kots_kot_number_key
| kots_user_id_fkey
| kots_invoice_id_fkey.

Inductive outcome (A : Type) : Type :=
| Done (a : A)
| Refused (e : kots_error).

Arguments Done {A} a.
Arguments Refused {A} e.

(** [auth.uid() = user_id], the condition of all four policies on [kots];
    without a user it is NULL and selects nothing. *)
Definition own (s : session) (k : kot) : bool :=
  match auth_uid s with
  | Some u => (u =? user_id k)%N
  | None => false
  end.

(** The rows of [kots] a query of the session sees ("Users can view own
    kots"). *)
Definition visible_kots (s : session) (kots : list kot) : list kot :=
  List.filter (own s) kots.

(** [CHECK (order_type IN ('dine_in', 'delivery', 'take_away'))] *)
Definition order_type_check (k : kot) : bool :=
  String.eqb (order_type k) "dine_in" || String.eqb (order_type k) "delivery"
  || String.eqb (order_type k) "take_away".

(** [CHECK (status IN ('pending', 'preparing', 'ready', 'served',
    'cancelled'))] *)
Definition status_check (k : kot) : bool :=
  String.eqb (status k) "pending" || String.eqb (status k) "preparing"
  || String.eqb (status k) "ready" || String.eqb (status k) "served"
  || String.eqb (status k) "cancelled".

(** [CHECK ((order_type != 'dine_in') OR (order_type = 'dine_in' AND
    table_number IS NOT NULL))] *)
Definition table_number_check (k : kot) : bool :=
  negb (String.eqb (order_type k) "dine_in")
  || (String.eqb (order_type k) "dine_in"
      && match table_number k with Some _ => true | None => false end).

(** [CHECK (payment_method IN ('cash', 'upi', 'card', 'split'))]; a NULL
    passes a CHECK. *)
Definition payment_method_check (k : kot) : bool :=
  match payment_method k with
  | None => true
  | Some m =>
      String.eqb m "cash" || String.eqb m "upi" || String.eqb m "card"
      || String.eqb m "split"
  end.

(** The policy "Users can create own kots" and the four CHECK constraints,
    the tests of an INSERT that do not read the table. *)
Definition passes_policy_and_checks (s : session) (k : kot) : bool :=
  own s k && order_type_check k && payment_method_check k && status_check k
  && table_number_check k.

(** [user_id uuid REFERENCES auth.users(id)] and [invoice_id uuid
    REFERENCES invoices(id)]; a NULL references nothing. *)
Definition user_id_exists (auth_users : gset uuid) (k : kot) : bool :=
  bool_decide (user_id k ∈ auth_users).

Definition invoice_id_exists (invoices : gset uuid) (k : kot) : bool :=
  match invoice_id k with
  | None => true
  | Some i => bool_decide (i ∈ invoices)
  end.

(** [INSERT INTO kots]: the policy "Users can create own kots" first, then
    the CHECK constraints, then the primary key and [kot_number UNIQUE], both
    over all rows of the table, visible or not, and at last the two foreign
    keys. *)
Definition insert_kots (auth_users invoices : gset uuid) (s : session) (k : kot)
    (kots : list kot) : outcome (list kot) :=
  if negb (own s k) then Refused row_level_security_violation
  else if negb (order_type_check k) then Refused kots_order_type_check
  else if negb (payment_method_check k) then Refused kots_payment_method_check
  else if negb (status_check k) then Refused kots_status_check
  else if negb (table_number_check k) then Refused table_number_required_for_dine_in
  else if existsb (fun k' => (kot_id k' =? kot_id k)%N) kots then Refused kots_pkey
  else if existsb (fun k' => String.eqb (kot_number k') (kot_number k)) kots
       then Refused kots_kot_number_key
  else if negb (user_id_exists auth_users k) then Refused kots_user_id_fkey
  else if negb (invoice_id_exists invoices k) then Refused kots_invoice_id_fkey
  else Done (kots ++ [k]).

(** [DELETE FROM kots WHERE id = ...] under "Users can delete own kots". *)
Definition delete_kots (s : session) (id : uuid) (kots : list kot) : list kot :=
  List.filter (fun k => negb ((kot_id k =? id)%N && own s k)) kots.

(** *** Text functions *)

(** [text LIKE pattern] with the default escape character: [%] stands for
    any sequence of characters, [_] for any one character, and a backslash
    makes the character after it stand for itself.  (A pattern ending in a
    lone backslash is an error in PostgreSQL; it matches nothing here.) *)
Fixpoint LIKE_pattern (pattern : string) : string → bool :=
  match pattern with
  | EmptyString =>
      fun text => match text with EmptyString => true | String _ _ => false end
  | String c rest =>
      if Ascii.eqb c "%"%char then
        fix any (text : string) : bool :=
          LIKE_pattern rest text
          || match text with
             | EmptyString => false
             | String _ text' => any text'
             end
      else if Ascii.eqb c "_"%char then
        fun text =>
          match text with
          | EmptyString => false
          | String _ text' => LIKE_pattern rest text'
          end
      else if Ascii.eqb c "\"%char then
        match rest with
        | EmptyString => fun _ => false
        | String c' rest' =>
            fun text =>
              match text with
              | EmptyString => false
              | String a text' => Ascii.eqb a c' && LIKE_pattern rest' text'
              end
        end
      else
        fun text =>
          match text with
          | EmptyString => false
          | String a text' => Ascii.eqb a c && LIKE_pattern rest text'
          end
  end.

Definition LIKE (text pattern : string) : bool := LIKE_pattern pattern text.

(** The first [n] characters of [fill] repeated over and over. *)
Fixpoint filling (n : nat) (fill rest : string) : string :=
  match n with
  | O => EmptyString
  | S n' =>
      match rest with
      | String c rest' => String c (filling n' fill rest')
      | EmptyString =>
          match fill with
          | String c fill' => String c (filling n' fill fill')
          | EmptyString => EmptyString
          end
      end
  end.

(** [LPAD(text, len, fill)]: a text longer than [len] is cut to its first
    [len] characters, a shorter one is filled up on the left. *)
Definition LPAD (text : string) (len : nat) (fill : string) : string :=
  if (len <=? String.length text)%nat
  then String.substring 0 len text
  else filling (len - String.length text) fill fill ++ text.

(** *** generate_kot_number *)

(** The pattern of the day's numbers; [today_date] is the value of
    [to_char(CURRENT_DATE, 'YYYYMMDD')]. *)
Definition todays_pattern (today_date : string) : string :=
  "KOT-" ++ today_date ++ "-%".

(** [SELECT COUNT( * ) FROM kots WHERE kot_number LIKE ...], as the session
    sees the table: the function is not SECURITY DEFINER, so that the SELECT
    policy applies to it. *)
Definition todays_count (today_date : string) (s : session) (kots : list kot)
  : N :=
  N.of_nat
    (length (List.filter (fun k => LIKE (kot_number k) (todays_pattern today_date))
               (visible_kots s kots))).

(** The number made of a sequence number. *)
Definition number_of (today_date : string) (sequence_num : N) : string :=
  "KOT-" ++ today_date ++ "-" ++ LPAD (pretty sequence_num) 4 "0".

Definition generate_kot_number (today_date : string) (s : session)
    (kots : list kot) : string :=
  let sequence_num := (todays_count today_date s kots + 1)%N in
  number_of today_date sequence_num.

(** The value of a string of decimal digits. *)
Definition digit_value (c : Ascii.ascii) : N := (Ascii.N_of_ascii c - 48)%N.

Fixpoint read_digits (acc : N) (text : string) : N :=
  match text with
  | EmptyString => acc
  | String c text' => read_digits (10 * acc + digit_value c)%N text'
  end.

(** No character of [text] is special in a LIKE pattern. *)
Fixpoint literal (text : string) : bool :=
  match text with
  | EmptyString => true
  | String c text' =>
      negb (Ascii.eqb c "%"%char) && negb (Ascii.eqb c "_"%char) && negb (Ascii.eqb c "\"%char)
      && literal text'
  end.

(** The tickets of one user numbered [first], [first + 1], ... in the order
    of their keys. *)
Fixpoint tickets (today_date : string) (u : uuid) (first : N) (ids : list uuid)
  : list kot :=
  match ids with
  | [] => []
  | id :: ids' =>
      {| kot_id := id; kot_number := number_of today_date first;
         order_type := "take_away"; table_number := None;
         status := "pending"; user_id := u; invoice_id := None;
         payment_method := Some "cash" |}
      :: tickets today_date u (first + 1) ids'
  end.

(** A ticket for a table, as a client sends it. *)
Definition dine_in_ticket (id : uuid) (number : string) (u : uuid) : kot :=
  {| kot_id := id; kot_number := number;
     order_type := "dine_in"; table_number := Some "T4";
     status := "pending"; user_id := u; invoice_id := None;
     payment_method := Some "cash" |}.

(** The numbers of the day in the table run from 1 to [n], and [n] is the
    count of the session. *)
Definition numbered_up_to (today_date : string) (s : session) (n : N)
    (kots : list kot) : Prop :=
  todays_count today_date s kots = n
  ∧ ∀ k, k ∈ kots →
         LIKE (kot_number k) (todays_pattern today_date) = true →
         ∃ i, (1 ≤ i ≤ n)%N ∧ kot_number k = number_of today_date i.

(** * Properties *)

(** ** Arithmetic of [integer] *)

Lemma int4mi_Ok a b :
  - int4_max ≤ a - b ≤ int4_max → int4mi a b = Ok (a - b).
Proof.
  intros H. unfold int4mi, int4.
  replace (int4_min <=? a - b) with true
    by (symmetry; apply Z.leb_le; unfold int4_min, int4_max in *; lia).
  replace (a - b <=? int4_max) with true by (symmetry; apply Z.leb_le; lia).
  reflexivity.
Qed.

Lemma int4abs_Ok z : - int4_max ≤ z → int4abs z = Ok (Z.abs z).
Proof.
  intros H. unfold int4abs.
  destruct (Z.eqb_spec z int4_min) as [->|]; [|reflexivity].
  unfold int4_min, int4_max in H. lia.
Qed.

(** ** Rows and keys *)

Lemma snapshot_matches_spec p d r :
  snapshot_matches p d r = true ↔ ds_product_id r = p ∧ snapshot_date r = d.
Proof.
  unfold snapshot_matches.
  rewrite andb_true_iff, N.eqb_eq, Z.eqb_eq. tauto.
Qed.

Lemma snapshot_matches_key p d r :
  snapshot_matches p d r = true ↔ snapshot_key r = (p, d).
Proof.
  rewrite snapshot_matches_spec. unfold snapshot_key.
  split; [intros [-> ->]; reflexivity | intros [= -> ->]; auto].
Qed.

Lemma snapshot_matches_update p d t m q r :
  snapshot_matches p d (update_snapshot_row t m q r) = snapshot_matches p d r.
Proof. reflexivity. Qed.

Lemma touch_key p d t m q r : snapshot_key (touch p d t m q r) = snapshot_key r.
Proof. unfold touch. destruct (snapshot_matches p d r); reflexivity. Qed.

Lemma touch_matches p d t m q p' d' r :
  snapshot_matches p' d' (touch p d t m q r) = snapshot_matches p' d' r.
Proof. unfold touch. destruct (snapshot_matches p d r); reflexivity. Qed.

Lemma map_touch_keys p d t m q l :
  map snapshot_key (map (touch p d t m q) l) = map snapshot_key l.
Proof.
  induction l as [|r l IH]; simpl; [reflexivity|].
  now rewrite touch_key, IH.
Qed.

Lemma find_map_touch p d t m q p' d' l :
  List.find (snapshot_matches p' d') (map (touch p d t m q) l)
  = touch p d t m q <$> List.find (snapshot_matches p' d') l.
Proof.
  induction l as [|r l IH]; simpl; [reflexivity|].
  rewrite touch_matches.
  destruct (snapshot_matches p' d' r); [reflexivity | exact IH].
Qed.

Lemma filter_map_touch p d t m q p' d' l :
  List.filter (snapshot_matches p' d') (map (touch p d t m q) l)
  = map (touch p d t m q) (List.filter (snapshot_matches p' d') l).
Proof.
  induction l as [|r l IH]; simpl; [reflexivity|].
  rewrite touch_matches.
  destruct (snapshot_matches p' d' r); simpl; now rewrite IH.
Qed.

Lemma find_snoc {A} (f : A → bool) l x :
  List.find f (l ++ [x])
  = match List.find f l with
    | Some y => Some y
    | None => if f x then Some x else None
    end.
Proof.
  induction l as [|a l IH]; simpl; [reflexivity|].
  destruct (f a); [reflexivity | exact IH].
Qed.

Lemma existsb_find_none {A} (f : A → bool) l :
  existsb f l = false ↔ List.find f l = None.
Proof.
  induction l as [|a l IH]; simpl; [tauto|].
  destruct (f a); simpl; [split; discriminate | exact IH].
Qed.

Lemma existsb_filter_nil {A} (f : A → bool) l :
  existsb f l = false ↔ List.filter f l = [].
Proof.
  induction l as [|a l IH]; simpl; [tauto|].
  destruct (f a); simpl; [split; discriminate | exact IH].
Qed.

(** ** update_daily_snapshot, branch by branch *)

Lemma update_daily_snapshot_existing s p t m db pr :
  products db !! p = Some pr →
  existsb (snapshot_matches p (CURRENT_DATE s)) (daily_inventory_snapshots db) = true →
  update_daily_snapshot s p t m db
  = Ok {| products := products db;
          inventory_history := inventory_history db;
          daily_inventory_snapshots :=
            map (touch p (CURRENT_DATE s) t m (quantity pr))
              (daily_inventory_snapshots db) |}.
Proof.
  intros Hp He. unfold update_daily_snapshot, update_daily_snapshot_branches.
  rewrite He, Hp. reflexivity.
Qed.

Lemma update_daily_snapshot_fresh s p t m db pr :
  products db !! p = Some pr →
  existsb (snapshot_matches p (CURRENT_DATE s)) (daily_inventory_snapshots db) = false →
  update_daily_snapshot s p t m db
  = Ok {| products := products db;
          inventory_history := inventory_history db;
          daily_inventory_snapshots :=
            daily_inventory_snapshots db
              ++ [new_snapshot_row p (CURRENT_DATE s) t m pr] |}.
Proof.
  intros Hp He. unfold update_daily_snapshot, update_daily_snapshot_branches.
  rewrite He, Hp. unfold insert_daily_inventory_snapshot. simpl.
  rewrite He, Hp. reflexivity.
Qed.

Lemma update_daily_snapshot_upsert s p t m db pr :
  products db !! p = Some pr →
  update_daily_snapshot s p t m db
  = Ok {| products := products db;
          inventory_history := inventory_history db;
          daily_inventory_snapshots :=
            upsert_rows (CURRENT_DATE s) p t m pr (daily_inventory_snapshots db) |}.
Proof.
  intros Hp. unfold upsert_rows.
  destruct (existsb _ (daily_inventory_snapshots db)) eqn:He.
  - now apply update_daily_snapshot_existing.
  - now apply update_daily_snapshot_fresh.
Qed.

(** Whatever flag a caller holds, the procedure writes to the snapshot
    table only. *)
Lemma update_daily_snapshot_branches_frame flag d p t m db db' :
  update_daily_snapshot_branches flag d p t m db = Ok db' →
  products db' = products db ∧ inventory_history db' = inventory_history db.
Proof.
  unfold update_daily_snapshot_branches, insert_daily_inventory_snapshot.
  intros H.
  repeat (match type of H with
          | context [match ?x with _ => _ end] => destruct x
          end; try discriminate);
  injection H as <-; auto.
Qed.

Lemma update_daily_snapshot_frame s p t m db db' :
  update_daily_snapshot s p t m db = Ok db' →
  products db' = products db ∧ inventory_history db' = inventory_history db.
Proof. apply update_daily_snapshot_branches_frame. Qed.

(** ** log_inventory_change *)

Lemma chosen_cases OLD NEW :
  fst (chosen OLD NEW) = "consumption" ∨ fst (chosen OLD NEW) = "adjustment".
Proof. unfold chosen. destruct (quantity NEW <? quantity OLD); auto. Qed.

Lemma log_inventory_change_unchanged s op id OLD NEW db :
  quantity OLD = quantity NEW →
  log_inventory_change s op id OLD NEW db = Ok db.
Proof.
  intros H. unfold log_inventory_change.
  rewrite H, Z.eqb_refl, andb_false_r. reflexivity.
Qed.

Lemma log_inventory_change_not_update s op id OLD NEW db :
  op ≠ TG_UPDATE → log_inventory_change s op id OLD NEW db = Ok db.
Proof. intros H. destruct op; try reflexivity. congruence. Qed.

Lemma log_inventory_change_changed s id OLD NEW db :
  is_Some (products db !! id) →
  quantity OLD ≠ quantity NEW →
  - int4_max ≤ quantity NEW - quantity OLD ≤ int4_max →
  log_inventory_change s TG_UPDATE id OLD NEW db
  = update_daily_snapshot s id (fst (chosen OLD NEW))
      (Z.abs (quantity NEW - quantity OLD))
      (with_entry (logged s id OLD NEW) db).
Proof.
  intros [x Hx] Hne Hr. unfold log_inventory_change.
  apply Z.eqb_neq in Hne. rewrite Hne. simpl andb. cbv iota.
  rewrite int4mi_Ok by exact Hr.
  fold (chosen OLD NEW). unfold logged, with_entry.
  destruct (chosen_cases OLD NEW) as [Hc|Hc];
    destruct (chosen OLD NEW) as [c n]; simpl in Hc; subst c; simpl;
    unfold insert_inventory_history; simpl; rewrite Hx; simpl;
    rewrite int4abs_Ok by lia; reflexivity.
Qed.

(** An out-of-range difference aborts the trigger, and with it the UPDATE. *)
Lemma log_inventory_change_overflow s id OLD NEW db :
  quantity OLD ≠ quantity NEW →
  ¬ (- int4_max ≤ quantity NEW - quantity OLD ≤ int4_max) →
  ∃ e, log_inventory_change s TG_UPDATE id OLD NEW db = Err e.
Proof.
  intros Hne Hr. unfold log_inventory_change.
  apply Z.eqb_neq in Hne. rewrite Hne. simpl andb. cbv iota.
  destruct (if quantity NEW <? quantity OLD then _ else _) as [c n].
  unfold int4mi.
  destruct (int4 (quantity NEW - quantity OLD)) eqn:Hi; simpl; [|eauto].
  match goal with
  | |- context [insert_inventory_history ?r db] =>
      destruct (insert_inventory_history r db)
  end; simpl; [|eauto].
  unfold int4abs.
  destruct (Z.eqb_spec (quantity NEW - quantity OLD) int4_min) as [|Hm]; [eauto|].
  exfalso. apply Hr. unfold int4 in Hi. apply andb_true_iff in Hi as [H1 H2].
  apply Z.leb_le in H1, H2. unfold int4_min, int4_max in *. lia.
Qed.

(** The trigger as a total description of its successful runs. *)
Lemma log_inventory_change_Ok s id OLD NEW db pr :
  products db !! id = Some pr →
  quantity OLD ≠ quantity NEW →
  - int4_max ≤ quantity NEW - quantity OLD ≤ int4_max →
  ∃ db',
    log_inventory_change s TG_UPDATE id OLD NEW db = Ok db'
    ∧ products db' = products db
    ∧ inventory_history db' = inventory_history db ++ [logged s id OLD NEW]
    ∧ daily_inventory_snapshots db'
      = upsert_rows (CURRENT_DATE s) id (fst (chosen OLD NEW))
          (Z.abs (quantity NEW - quantity OLD)) pr (daily_inventory_snapshots db).
Proof.
  intros Hx Hne Hr. rewrite log_inventory_change_changed by eauto.
  erewrite update_daily_snapshot_upsert by (simpl; eassumption).
  eexists; repeat split.
Qed.

(** Successful runs of the trigger have one of the two shapes above. *)
Lemma log_inventory_change_inv s id OLD NEW db db' :
  log_inventory_change s TG_UPDATE id OLD NEW db = Ok db' →
  (quantity OLD = quantity NEW ∧ db' = db)
  ∨ (quantity OLD ≠ quantity NEW
     ∧ - int4_max ≤ quantity NEW - quantity OLD ≤ int4_max
     ∧ is_Some (products db !! id)).
Proof.
  intros H.
  destruct (Z.eq_dec (quantity OLD) (quantity NEW)) as [e|n].
  - left. rewrite log_inventory_change_unchanged in H by exact e.
    injection H as <-. auto.
  - right. split; [exact n|].
    assert (Hr : - int4_max ≤ quantity NEW - quantity OLD ≤ int4_max).
    { destruct (decide (- int4_max ≤ quantity NEW - quantity OLD ≤ int4_max))
        as [|Hn]; [assumption|].
      destruct (log_inventory_change_overflow s id OLD NEW db n Hn) as [e E].
      rewrite E in H. discriminate. }
    split; [exact Hr|].
    unfold log_inventory_change in H.
    apply Z.eqb_neq in n. rewrite n in H. simpl andb in H. cbv iota in H.
    destruct (if quantity NEW <? quantity OLD then _ else _) as [c nn].
    rewrite int4mi_Ok in H by exact Hr. simpl in H.
    unfold insert_inventory_history in H. simpl in H.
    destruct (products db !! id); [eauto|].
    repeat (match type of H with
            | context [if ?x then _ else _] => destruct x
            end; simpl in H; try discriminate).
Qed.

(** ** The worked day *)

Example day_snapshot :
  daily_inventory_snapshots after_edits
  = [ {| ds_product_id := flour; snapshot_date := 10; opening_stock := 120;
         purchases := 0; sales := 35; adjustments := 30;
         closing_stock := 95; max_stock := 120 |} ].
Proof. vm_compute. reflexivity. Qed.

Example day_ledger :
  map (fun e => (activity_type e, quantity_before e, quantity_change e, quantity_after e))
    (inventory_history after_edits)
  = [ ("adjustment", 100, 20, 120); ("consumption", 120, -30, 90);
      ("consumption", 90, -5, 85); ("adjustment", 85, 10, 95) ].
Proof. vm_compute. reflexivity. Qed.

(** ** Classification of a manual change *)

(** C2.  A change that arrives as a bare UPDATE is classified from the old
    and the new quantity alone: the trigger writes exactly the entries
    [classify] prescribes, a 'consumption' for a decrease, an 'adjustment'
    for an increase, and nothing at all, leaving the database as it is,
    when the quantity is unchanged. *)
Theorem manual_change_classified_by_sign s id OLD NEW db :
  is_Some (products db !! id) →
  - int4_max ≤ quantity NEW - quantity OLD ≤ int4_max →
  ∃ db' es,
    log_inventory_change s TG_UPDATE id OLD NEW db = Ok db'
    ∧ inventory_history db' = inventory_history db ++ es
    ∧ map activity_type es
      = option_list (classify (quantity OLD) (quantity NEW))
    ∧ (quantity NEW < quantity OLD → map activity_type es = ["consumption"])
    ∧ (quantity OLD < quantity NEW → map activity_type es = ["adjustment"])
    ∧ (quantity NEW = quantity OLD → es = [] ∧ db' = db).
Proof.
  intros Hx Hr.
  destruct (Z.eq_dec (quantity OLD) (quantity NEW)) as [e|n].
  - exists db, []. rewrite log_inventory_change_unchanged by exact e.
    unfold classify. rewrite e, Z.ltb_irrefl, app_nil_r.
    repeat split; auto; lia.
  - destruct Hx as [pr Hx].
    destruct (log_inventory_change_Ok s id OLD NEW db pr Hx n Hr)
      as (db' & E & _ & Hh & _).
    exists db', [logged s id OLD NEW]. rewrite E, Hh.
    unfold classify, logged, chosen. simpl.
    destruct (Z.ltb_spec (quantity NEW) (quantity OLD));
      destruct (Z.ltb_spec (quantity OLD) (quantity NEW));
      simpl; repeat split; auto; lia.
Qed.

Lemma manual_change_classified_by_sign_witness :
  ∃ db' es,
    log_inventory_change clerk TG_UPDATE flour (stocked 90) (stocked 85)
      after_invoice = Ok db'
    ∧ inventory_history db' = inventory_history after_invoice ++ es
    ∧ map activity_type es = ["consumption"].
Proof.
  destruct (manual_change_classified_by_sign clerk flour (stocked 90) (stocked 85)
              after_invoice) as (db' & es & E & Hh & _ & Hc & _).
  - vm_compute. eauto.
  - vm_compute. split; discriminate.
  - exists db', es. repeat split; [exact E | exact Hh |].
    apply Hc. vm_compute. reflexivity.
Defined.

(** ** Writing the current quantity back *)

(** C5.  An UPDATE that leaves the quantity of the product as it is writes
    no ledger entry and leaves every snapshot row as it was; with in-range
    values it is a successful statement that stores the new row image and
    nothing else. *)
Theorem unchanged_quantity_is_noop s id NEW db :
  quantity <$> products db !! id = Some (quantity NEW) →
  inventory_history (commit s (UPDATE_products id NEW) db) = inventory_history db
  ∧ daily_inventory_snapshots (commit s (UPDATE_products id NEW) db)
    = daily_inventory_snapshots db
  ∧ (int4 (quantity NEW) && int4 (reorder_level NEW) = true →
     exec_statement s (UPDATE_products id NEW) db
     = Ok (with_products (<[id := NEW]> (products db)) db)).
Proof.
  intros H. unfold commit, exec_statement.
  destruct (products db !! id) as [OLD|]; [|discriminate].
  injection H as H.
  rewrite log_inventory_change_unchanged by exact H.
  destruct (int4 (quantity NEW) && int4 (reorder_level NEW)); simpl; auto.
  repeat split; auto. discriminate.
Qed.

Lemma unchanged_quantity_is_noop_witness :
  inventory_history (commit clerk (UPDATE_products flour (stocked 90)) after_invoice)
  = inventory_history after_invoice
  ∧ daily_inventory_snapshots
      (commit clerk (UPDATE_products flour (stocked 90)) after_invoice)
    = daily_inventory_snapshots after_invoice.
Proof.
  destruct (unchanged_quantity_is_noop clerk flour (stocked 90) after_invoice)
    as (H1 & H2 & _).
  - vm_compute. reflexivity.
  - split; assumption.
Defined.

(** ** Changes issued by the purchase and invoice flows *)

(** C6, as stated, fails.  A quantity change reaches the ledger through the
    UPDATE statement only, which carries the new row and nothing else: the
    receipt of 20 units against a purchase order is logged as an
    'adjustment' with reference 'manual' and no reference id, and it feeds
    the adjustments column of the snapshot, not the purchases column. *)
Lemma receipt_logged_as_manual_adjustment :
  map (fun e => (activity_type e, reference_type e, reference_id e))
    (inventory_history after_receipt)
  = [("adjustment", Some "manual", None)]
  ∧ map (fun r => (purchases r, adjustments r)) (daily_inventory_snapshots after_receipt)
    = [(0, 20)]
  ∧ ¬ (∃ e, e ∈ inventory_history after_receipt
            ∧ activity_type e = "purchase"
            ∧ reference_type e = Some "purchase_order").
Proof.
  split; [vm_compute; reflexivity|].
  split; [vm_compute; reflexivity|].
  intros (e & Hin & Ha & _).
  change (inventory_history after_receipt)
    with [logged clerk flour (stocked 100) (stocked 120)] in Hin.
  apply list_elem_of_singleton in Hin. subst e. vm_compute in Ha. discriminate.
Qed.

(** C6, amended.  Whatever flow issues the UPDATE, the trigger classifies
    the change by its sign and by nothing else: a decrease writes exactly one
    entry, a 'consumption', an increase exactly one, an 'adjustment', an
    unchanged quantity none; every entry written runs from the old to the
    new quantity with reference type 'manual' and no reference id, and is
    never a 'purchase' or a 'sale'. *)
Theorem every_change_logged_as_manual s id OLD NEW db :
  is_Some (products db !! id) →
  - int4_max ≤ quantity NEW - quantity OLD ≤ int4_max →
  ∃ db' es,
    log_inventory_change s TG_UPDATE id OLD NEW db = Ok db'
    ∧ inventory_history db' = inventory_history db ++ es
    ∧ (quantity NEW = quantity OLD → es = [])
    ∧ (quantity NEW < quantity OLD →
       ∃ e, es = [e] ∧ activity_type e = "consumption")
    ∧ (quantity OLD < quantity NEW →
       ∃ e, es = [e] ∧ activity_type e = "adjustment")
    ∧ ∀ e, e ∈ es →
        reference_type e = Some "manual"
        ∧ reference_id e = None
        ∧ activity_type e ≠ "purchase"
        ∧ activity_type e ≠ "sale"
        ∧ quantity_before e = quantity OLD
        ∧ quantity_after e = quantity NEW.
Proof.
  intros Hx Hr.
  destruct (Z.eq_dec (quantity OLD) (quantity NEW)) as [e|n].
  - exists db, []. rewrite log_inventory_change_unchanged by exact e.
    rewrite app_nil_r. repeat split; try lia; try congruence.
    all: exfalso; eapply not_elem_of_nil; eassumption.
  - destruct Hx as [pr Hx].
    destruct (log_inventory_change_Ok s id OLD NEW db pr Hx n Hr)
      as (db' & E & _ & Hh & _).
    exists db', [logged s id OLD NEW]. rewrite E, Hh.
    split; [reflexivity|]. split; [reflexivity|]. split; [congruence|].
    split; [|split].
    + intros Hlt. eexists. split; [reflexivity|].
      unfold logged, chosen. simpl.
      apply Z.ltb_lt in Hlt. now rewrite Hlt.
    + intros Hlt. eexists. split; [reflexivity|].
      unfold logged, chosen. simpl.
      replace (quantity NEW <? quantity OLD) with false
        by (symmetry; apply Z.ltb_ge; lia).
      reflexivity.
    + intros e He. apply list_elem_of_singleton in He. subst e. simpl.
      repeat split; auto;
        destruct (chosen_cases OLD NEW) as [-> | ->]; discriminate.
Qed.

Lemma every_change_logged_as_manual_witness :
  ∃ db' e,
    log_inventory_change clerk TG_UPDATE flour (stocked 100) (stocked 120)
      (with_products (<[flour := stocked 120]> (products day_start)) day_start)
    = Ok db'
    ∧ inventory_history db' = [e]
    ∧ activity_type e = "adjustment"
    ∧ reference_type e = Some "manual".
Proof.
  destruct (every_change_logged_as_manual clerk flour (stocked 100) (stocked 120)
              (with_products (<[flour := stocked 120]> (products day_start)) day_start))
    as (db' & es & E & Hh & _ & _ & Hinc & Hall).
  - vm_compute. eauto.
  - vm_compute. split; discriminate.
  - destruct Hinc as (e & -> & Ha); [vm_compute; reflexivity|].
    exists db', e. split; [exact E|]. split; [exact Hh|]. split; [exact Ha|].
    apply (Hall e). apply list_elem_of_here.
Defined.

(** ** What the ledger table and the snapshot procedure refuse *)

(** For an authenticated client and a creator that is NULL or a known
    user, the full INSERT is the one the trigger issues. *)
Lemma INSERT_INTO_inventory_history_trigger auth_users r db :
  created_by_exists auth_users r = true →
  INSERT_INTO_inventory_history auth_users authenticated r db
  = insert_inventory_history r db.
Proof.
  intros H. unfold INSERT_INTO_inventory_history, insert_inventory_history.
  now rewrite H.
Qed.




(** ** The snapshot table after an upsert *)

Lemma new_snapshot_row_matches p d t m pr :
  snapshot_matches p d (new_snapshot_row p d t m pr) = true.
Proof. apply snapshot_matches_spec. auto. Qed.

Lemma touch_other p d t m q r :
  snapshot_matches p d r = false → touch p d t m q r = r.
Proof. unfold touch. now intros ->. Qed.

Lemma touch_same p d t m q r :
  snapshot_matches p d r = true → touch p d t m q r = update_snapshot_row t m q r.
Proof. unfold touch. now intros ->. Qed.

Lemma snapshot_matches_exclusive p d p' d' r :
  (p', d') ≠ (p, d) →
  snapshot_matches p' d' r = true → snapshot_matches p d r = false.
Proof.
  intros Hne H'. destruct (snapshot_matches p d r) eqn:H; [|reflexivity].
  apply snapshot_matches_key in H, H'. congruence.
Qed.

(** The rows of the key that is upserted. *)
Lemma filter_upsert_rows_same d p t m pr rows :
  List.filter (snapshot_matches p d) (upsert_rows d p t m pr rows)
  = match List.filter (snapshot_matches p d) rows with
    | [] => [new_snapshot_row p d t m pr]
    | hit => map (update_snapshot_row t m (quantity pr)) hit
    end.
Proof.
  unfold upsert_rows. destruct (existsb _ rows) eqn:He.
  - rewrite filter_map_touch.
    assert (Hne : List.filter (snapshot_matches p d) rows ≠ []).
    { intros E. apply existsb_filter_nil in E. congruence. }
    assert (Hm : map (touch p d t m (quantity pr)) (List.filter (snapshot_matches p d) rows)
                 = map (update_snapshot_row t m (quantity pr))
                     (List.filter (snapshot_matches p d) rows)).
    { apply map_ext_in. intros r Hr. apply filter_In in Hr as [_ Hr].
      now apply touch_same. }
    rewrite Hm. destruct (List.filter _ rows); [congruence | reflexivity].
  - rewrite List.filter_app. apply existsb_filter_nil in He. rewrite He. simpl.
    now rewrite new_snapshot_row_matches.
Qed.

(** The rows of every other key stay as they are. *)
Lemma filter_upsert_rows_other d p t m pr p' d' rows :
  (p', d') ≠ (p, d) →
  List.filter (snapshot_matches p' d') (upsert_rows d p t m pr rows)
  = List.filter (snapshot_matches p' d') rows.
Proof.
  intros Hne. unfold upsert_rows. destruct (existsb _ rows).
  - rewrite filter_map_touch. rewrite <- (map_id (List.filter _ rows)) at 2.
    apply map_ext_in. intros r Hr. apply filter_In in Hr as [_ Hr].
    apply touch_other. eapply snapshot_matches_exclusive; eassumption.
  - rewrite List.filter_app. simpl.
    destruct (snapshot_matches p' d' (new_snapshot_row p d t m pr)) eqn:E.
    + apply snapshot_matches_key in E. unfold snapshot_key in E. simpl in E.
      congruence.
    + apply app_nil_r.
Qed.

Lemma find_upsert_rows_same d p t m pr rows :
  List.find (snapshot_matches p d) (upsert_rows d p t m pr rows)
  = Some match List.find (snapshot_matches p d) rows with
         | Some r => update_snapshot_row t m (quantity pr) r
         | None => new_snapshot_row p d t m pr
         end.
Proof.
  unfold upsert_rows. destruct (existsb _ rows) eqn:He.
  - rewrite find_map_touch.
    destruct (List.find (snapshot_matches p d) rows) as [r|] eqn:Hf.
    + simpl. f_equal. apply touch_same. now apply find_some in Hf as [_ Hf].
    + apply existsb_find_none in Hf. congruence.
  - rewrite find_snoc. apply existsb_find_none in He. rewrite He.
    now rewrite new_snapshot_row_matches.
Qed.

Lemma find_upsert_rows_kept d p t m pr p' d' rows r :
  List.find (snapshot_matches p' d') rows = Some r →
  List.find (snapshot_matches p' d') (upsert_rows d p t m pr rows)
  = Some (touch p d t m (quantity pr) r).
Proof.
  intros Hf. unfold upsert_rows. destruct (existsb _ rows) eqn:He.
  - now rewrite find_map_touch, Hf.
  - rewrite find_snoc, Hf. f_equal. symmetry. apply touch_other.
    destruct (snapshot_matches p d r) eqn:E; [|reflexivity].
    (* the INSERT branch is taken only when no row of the key exists *)
    apply find_some in Hf as [Hin _].
    assert (existsb (snapshot_matches p d) rows = true)
      by (apply existsb_exists; eauto).
    congruence.
Qed.

Lemma upsert_rows_keys_NoDup d p t m pr rows :
  NoDup (map snapshot_key rows) →
  NoDup (map snapshot_key (upsert_rows d p t m pr rows)).
Proof.
  intros Hnd. unfold upsert_rows. destruct (existsb _ rows) eqn:He.
  - now rewrite map_touch_keys.
  - rewrite map_app. simpl. apply NoDup_app. split; [exact Hnd|]. split.
    + intros k Hk Hk'. apply list_elem_of_singleton in Hk'. subst k.
      apply list_elem_of_In, in_map_iff in Hk as (r & Hr & Hin).
      apply snapshot_matches_key in Hr.
      assert (existsb (snapshot_matches p d) rows = true)
        by (apply existsb_exists; eauto).
      congruence.
    + apply NoDup_singleton.
Qed.

(** ** UPDATE products, with its trigger *)

Lemma exec_update_Ok s id OLD NEW db :
  products db !! id = Some OLD →
  int4 (quantity NEW) && int4 (reorder_level NEW) = true →
  quantity OLD ≠ quantity NEW →
  - int4_max ≤ quantity NEW - quantity OLD ≤ int4_max →
  ∃ db',
    exec_statement s (UPDATE_products id NEW) db = Ok db'
    ∧ products db' = <[id := NEW]> (products db)
    ∧ inventory_history db' = inventory_history db ++ [logged s id OLD NEW]
    ∧ daily_inventory_snapshots db'
      = upsert_rows (CURRENT_DATE s) id (fst (chosen OLD NEW))
          (Z.abs (quantity NEW - quantity OLD)) NEW (daily_inventory_snapshots db).
Proof.
  intros Hx Hi Hne Hr. unfold exec_statement. rewrite Hx, Hi. simpl negb. cbv iota.
  destruct (log_inventory_change_Ok s id OLD NEW
              (with_products (<[id := NEW]> (products db)) db) NEW)
    as (db' & E & R1 & R2 & R3);
    [apply lookup_insert_eq | exact Hne | exact Hr |].
  exists db'. auto.
Qed.

Lemma exec_update_cases s id NEW db db' :
  exec_statement s (UPDATE_products id NEW) db = Ok db' →
  (products db !! id = None ∧ db' = db)
  ∨ ∃ OLD,
      products db !! id = Some OLD
      ∧ products db' = <[id := NEW]> (products db)
      ∧ ((quantity OLD = quantity NEW
          ∧ inventory_history db' = inventory_history db
          ∧ daily_inventory_snapshots db' = daily_inventory_snapshots db)
         ∨ (quantity OLD ≠ quantity NEW
            ∧ inventory_history db' = inventory_history db ++ [logged s id OLD NEW]
            ∧ daily_inventory_snapshots db'
              = upsert_rows (CURRENT_DATE s) id (fst (chosen OLD NEW))
                  (Z.abs (quantity NEW - quantity OLD)) NEW
                  (daily_inventory_snapshots db))).
Proof.
  intros H. pose proof H as H0. unfold exec_statement in H.
  destruct (products db !! id) as [OLD|] eqn:Hx;
    [|left; injection H as <-; auto].
  right. exists OLD. split; [reflexivity|].
  destruct (int4 (quantity NEW) && int4 (reorder_level NEW)) eqn:Hi;
    [|discriminate]. simpl in H.
  destruct (log_inventory_change_inv _ _ _ _ _ _ H) as [[He ->] | (Hne & Hr & _)].
  - split; [reflexivity|]. left. auto.
  - destruct (exec_update_Ok s id OLD NEW db Hx Hi Hne Hr) as (db'' & E & R).
    rewrite E in H0. injection H0 as ->.
    destruct R as (R1 & R2 & R3). split; [exact R1|]. right. auto.
Qed.

(** An UPDATE either commits one of the shapes above or is rolled back. *)
Lemma commit_update_cases s id NEW db :
  commit s (UPDATE_products id NEW) db = db
  ∨ ∃ db', exec_statement s (UPDATE_products id NEW) db = Ok db'
           ∧ commit s (UPDATE_products id NEW) db = db'.
Proof.
  unfold commit. destruct (exec_statement s (UPDATE_products id NEW) db); eauto.
Qed.

(** ** A snapshot row, once created, through later statements *)

Lemma find_filter_keep {A} (f g : A → bool) l :
  (∀ x, f x = true → g x = true) →
  List.find f (List.filter g l) = List.find f l.
Proof.
  intros Hfg. induction l as [|a l IH]; simpl; [reflexivity|].
  destruct (f a) eqn:Hf.
  - rewrite (Hfg a Hf). simpl. now rewrite Hf.
  - destruct (g a); simpl; [rewrite Hf|]; exact IH.
Qed.

Lemma touch_grows p d t m q r :
  opening_stock (touch p d t m q r) = opening_stock r
  ∧ max_stock r ≤ max_stock (touch p d t m q r).
Proof.
  unfold touch. destruct (snapshot_matches p d r); simpl; split; lia.
Qed.

(** One committed statement, on whatever day and by whatever user, keeps an
    existing snapshot row in place, with its opening stock, and does not
    lower its maximum; only the deletion of the product removes it. *)
Lemma commit_keeps_snapshot s st p d db r :
  snapshot_for p d db = Some r →
  deletes p st = false →
  ∃ r', snapshot_for p d (commit s st db) = Some r'
        ∧ opening_stock r' = opening_stock r
        ∧ max_stock r ≤ max_stock r'.
Proof.
  intros Hr Hd.
  assert (Hsame : ∀ db', daily_inventory_snapshots db' = daily_inventory_snapshots db →
            ∃ r', snapshot_for p d db' = Some r'
                  ∧ opening_stock r' = opening_stock r ∧ max_stock r ≤ max_stock r').
  { intros db' E. exists r. unfold snapshot_for in *. rewrite E. split; [exact Hr|]. lia. }
  destruct st as [id row | id NEW | id].
  - apply Hsame. unfold commit, exec_statement.
    destruct (negb _); [reflexivity|]. destruct (products db !! id); reflexivity.
  - destruct (commit_update_cases s id NEW db) as [-> | (db' & E & ->)];
      [now apply Hsame|].
    apply exec_update_cases in E as [[_ ->] | (OLD & _ & _ & [(_ & _ & E) | (_ & _ & E)])];
      [now apply Hsame | now apply Hsame |].
    exists (touch id (CURRENT_DATE s) (fst (chosen OLD NEW))
              (Z.abs (quantity NEW - quantity OLD)) (quantity NEW) r).
    unfold snapshot_for in *. rewrite E.
    split; [now apply find_upsert_rows_kept | apply touch_grows].
  - exists r. simpl in Hd. unfold commit, exec_statement, snapshot_for in *. simpl.
    rewrite find_filter_keep; [split; [exact Hr | lia]|].
    intros x Hx. apply snapshot_matches_spec in Hx as [-> _].
    apply negb_true_iff. rewrite N.eqb_sym. exact Hd.
Qed.

Lemma commit_all_keeps_snapshot s sts p d db r :
  snapshot_for p d db = Some r →
  forallb (fun st => negb (deletes p st)) sts = true →
  ∃ r', snapshot_for p d (commit_all s sts db) = Some r'
        ∧ opening_stock r' = opening_stock r
        ∧ max_stock r ≤ max_stock r'.
Proof.
  revert db r. induction sts as [|st sts IH]; intros db r Hr Hnd; simpl.
  - exists r. split; [exact Hr | lia].
  - simpl in Hnd. apply andb_true_iff in Hnd as [Hst Hnd].
    apply negb_true_iff in Hst.
    destruct (commit_keeps_snapshot s st p d db r Hr Hst) as (r1 & H1 & Ho1 & Hm1).
    destruct (IH _ _ H1 Hnd) as (r2 & H2 & Ho2 & Hm2).
    exists r2. split; [exact H2|]. split; [congruence | lia].
Qed.

Lemma Forall2_map_self {A} (R : A → A → Prop) (f : A → A) l :
  (∀ x, R x (f x)) → Forall2 R l (map f l).
Proof. intros H. induction l; simpl; constructor; auto. Qed.

Lemma update_daily_snapshot_keeps_opening s p t m p' d' db db' r :
  snapshot_for p' d' db = Some r →
  update_daily_snapshot s p t m db = Ok db' →
  ∃ r', snapshot_for p' d' db' = Some r'
        ∧ opening_stock r' = opening_stock r
        ∧ max_stock r ≤ max_stock r'.
Proof.
  intros Hr H. destruct (products db !! p) as [pr|] eqn:Hp.
  - rewrite (update_daily_snapshot_upsert _ _ _ _ _ _ Hp) in H. injection H as <-.
    eexists. unfold snapshot_for in *. simpl.
    split; [eapply find_upsert_rows_kept; eassumption | apply touch_grows].
  - unfold update_daily_snapshot, update_daily_snapshot_branches in H.
    rewrite Hp in H.
    destruct (existsb _ (daily_inventory_snapshots db)); [discriminate|].
    injection H as <-. exists r. split; [exact Hr|]. split; lia.
Qed.

(** ** Routing of the magnitude *)

(** C3.  For each category of the routing table, a snapshot upsert for an
    existing product adds the magnitude to the column the table names and to
    no other: the rows of the day are updated in place, or, when there is
    none, one row is created holding the magnitude in that column and zero in
    the others ('opening_stock' and 'daily_snapshot' move no column).  Rows
    of other products and other days are not touched. *)
Theorem magnitude_routed_to_one_bucket s p t b m db pr :
  (t, b) ∈ routing_table →
  products db !! p = Some pr →
  ∃ db',
    update_daily_snapshot s p t m db = Ok db'
    ∧ match snapshots_of p (CURRENT_DATE s) db with
      | [] =>
          ∃ r', snapshots_of p (CURRENT_DATE s) db' = [r']
                ∧ purchases r' = routed b Purchases m
                ∧ sales r' = routed b Sales m
                ∧ adjustments r' = routed b Adjustments m
      | hit =>
          Forall2 (fun r r' =>
                     purchases r' = purchases r + routed b Purchases m
                     ∧ sales r' = sales r + routed b Sales m
                     ∧ adjustments r' = adjustments r + routed b Adjustments m)
            hit (snapshots_of p (CURRENT_DATE s) db')
      end
    ∧ ∀ p' d', (p', d') ≠ (p, CURRENT_DATE s) →
        snapshots_of p' d' db' = snapshots_of p' d' db.
Proof.
  intros Ht Hp. rewrite (update_daily_snapshot_upsert _ _ _ _ _ _ Hp).
  eexists. split; [reflexivity|]. unfold snapshots_of. simpl.
  split; [|intros p' d' Hne; now apply filter_upsert_rows_other].
  rewrite filter_upsert_rows_same.
  unfold routing_table in Ht.
  repeat (apply elem_of_cons in Ht as [[= -> ->] | Ht]);
    try (now apply not_elem_of_nil in Ht);
    (destruct (List.filter _ (daily_inventory_snapshots db)) as [|r0 hit];
     [eexists; split; [reflexivity|]; simpl; auto
     | apply (Forall2_map_self _ _ (r0 :: hit)); intros r; simpl; lia]).
Qed.

Lemma magnitude_routed_to_one_bucket_witness :
  ∃ db',
    update_daily_snapshot clerk flour "consumption" 5 after_invoice = Ok db'
    ∧ map (fun r => (purchases r, sales r, adjustments r))
        (snapshots_of flour 10 db') = [(0, 35, 20)].
Proof.
  destruct (magnitude_routed_to_one_bucket clerk flour "consumption" (Some Sales) 5
              after_invoice (stocked 90)) as (db' & E & H & _).
  - apply list_elem_of_In. simpl. auto.
  - vm_compute. reflexivity.
  - exists db'. split; [exact E|].
    rewrite (update_daily_snapshot_upsert _ _ _ _ _ (stocked 90)) in E
      by (vm_compute; reflexivity).
    injection E as <-. vm_compute. reflexivity.
Defined.

(** ** The running maximum *)

(** C9.  An upsert on an existing snapshot sets max_stock to the larger of
    its old value and the live quantity of the product; hence through any
    statements committed that day, short of deleting the product, the row
    stays and its max_stock does not go down. *)
Theorem max_stock_is_running_maximum s p t m db pr r sts :
  products db !! p = Some pr →
  snapshot_for p (CURRENT_DATE s) db = Some r →
  forallb (fun st => negb (deletes p st)) sts = true →
  (∃ db' r',
      update_daily_snapshot s p t m db = Ok db'
      ∧ snapshot_for p (CURRENT_DATE s) db' = Some r'
      ∧ max_stock r' = Z.max (max_stock r) (quantity pr)
      ∧ max_stock r ≤ max_stock r')
  ∧ (∃ r'',
        snapshot_for p (CURRENT_DATE s) (commit_all s sts db) = Some r''
        ∧ max_stock r ≤ max_stock r'').
Proof.
  intros Hp Hr Hnd. split.
  - rewrite (update_daily_snapshot_upsert _ _ _ _ _ _ Hp).
    eexists. eexists. split; [reflexivity|].
    unfold snapshot_for in *. simpl. rewrite find_upsert_rows_same, Hr.
    split; [reflexivity|]. simpl. split; lia.
  - destruct (commit_all_keeps_snapshot s sts p _ db r Hr Hnd) as (r' & H & _ & Hm).
    eauto.
Qed.

Lemma max_stock_is_running_maximum_witness :
  ∃ r'',
    snapshot_for flour 10
      (commit_all clerk [UPDATE_products flour (stocked 90)] after_receipt)
    = Some r''
    ∧ 120 ≤ max_stock r''.
Proof.
  destruct (max_stock_is_running_maximum clerk flour "sale" 30 after_receipt
              (stocked 120)
              {| ds_product_id := flour; snapshot_date := 10; opening_stock := 120;
                 purchases := 0; sales := 0; adjustments := 20;
                 closing_stock := 120; max_stock := 120 |}
              [UPDATE_products flour (stocked 90)]) as (_ & r'' & H & Hm).
  - vm_compute. reflexivity.
  - vm_compute. reflexivity.
  - vm_compute. reflexivity.
  - exists r''. split; [exact H | exact Hm].
Defined.

(** The invoice of the worked day: the stock falls to 90, the maximum stays
    at 120. *)
Example max_stock_after_decrease :
  map (fun r => (closing_stock r, max_stock r))
    (daily_inventory_snapshots after_invoice) = [(90, 120)].
Proof. vm_compute. reflexivity. Qed.

(** ** The first write of a day *)

(** C10.  When an UPDATE changes the quantity of a product that has no
    snapshot for the day, the trigger creates one whose opening_stock,
    closing_stock and max_stock all equal the new quantity, the one the
    product holds after the change.  The opening stock then stays at that
    value through every later upsert of the day, whether it comes from a
    committed statement or from a direct call of the procedure. *)
Theorem first_write_seeds_snapshot s id OLD NEW db sts :
  products db !! id = Some OLD →
  snapshot_for id (CURRENT_DATE s) db = None →
  quantity OLD ≠ quantity NEW →
  int4 (quantity NEW) && int4 (reorder_level NEW) = true →
  - int4_max ≤ quantity NEW - quantity OLD ≤ int4_max →
  forallb (fun st => negb (deletes id st)) sts = true →
  ∃ db' r,
    exec_statement s (UPDATE_products id NEW) db = Ok db'
    ∧ snapshot_for id (CURRENT_DATE s) db' = Some r
    ∧ opening_stock r = quantity NEW
    ∧ closing_stock r = quantity NEW
    ∧ max_stock r = quantity NEW
    ∧ (∃ r', snapshot_for id (CURRENT_DATE s) (commit_all s sts db') = Some r'
             ∧ opening_stock r' = quantity NEW)
    ∧ (∀ p t m db'',
         update_daily_snapshot s p t m db' = Ok db'' →
         ∃ r', snapshot_for id (CURRENT_DATE s) db'' = Some r'
               ∧ opening_stock r' = quantity NEW).
Proof.
  intros Hx Hs Hne Hi Hr Hnd.
  destruct (exec_update_Ok s id OLD NEW db Hx Hi Hne Hr) as (db' & E & _ & _ & R).
  assert (Hf : snapshot_for id (CURRENT_DATE s) db'
               = Some (new_snapshot_row id (CURRENT_DATE s) (fst (chosen OLD NEW))
                         (Z.abs (quantity NEW - quantity OLD)) NEW)).
  { unfold snapshot_for in *. rewrite R, find_upsert_rows_same, Hs. reflexivity. }
  exists db', (new_snapshot_row id (CURRENT_DATE s) (fst (chosen OLD NEW))
                 (Z.abs (quantity NEW - quantity OLD)) NEW).
  repeat split; try assumption.
  - destruct (commit_all_keeps_snapshot s sts id _ db' _ Hf Hnd) as (r' & H & Ho & _).
    exists r'. split; [exact H | exact Ho].
  - intros p t m db'' H.
    destruct (update_daily_snapshot_keeps_opening _ _ _ _ _ _ _ _ _ Hf H)
      as (r' & H' & Ho & _).
    exists r'. split; [exact H' | exact Ho].
Qed.

Lemma first_write_seeds_snapshot_witness :
  ∃ db' r,
    exec_statement clerk (UPDATE_products flour (stocked 120)) day_start = Ok db'
    ∧ snapshot_for flour 10 db' = Some r
    ∧ opening_stock r = 120 ∧ closing_stock r = 120 ∧ max_stock r = 120.
Proof.
  destruct (first_write_seeds_snapshot clerk flour (stocked 100) (stocked 120)
              day_start [UPDATE_products flour (stocked 90)])
    as (db' & r & E & H & Ho & Hc & Hm & _).
  - vm_compute. reflexivity.
  - vm_compute. reflexivity.
  - vm_compute. discriminate.
  - vm_compute. reflexivity.
  - vm_compute. split; discriminate.
  - vm_compute. reflexivity.
  - exists db', r. repeat split; assumption.
Defined.

(** ** What a committed statement changes *)

Lemma commit_cases s st db :
  commit s st db = db
  ∨ (∃ id row,
        st = INSERT_INTO_products id row
        ∧ products db !! id = None
        ∧ products (commit s st db) = <[id := row]> (products db)
        ∧ inventory_history (commit s st db) = inventory_history db
        ∧ daily_inventory_snapshots (commit s st db) = daily_inventory_snapshots db)
  ∨ (∃ id OLD NEW,
        st = UPDATE_products id NEW
        ∧ products db !! id = Some OLD
        ∧ products (commit s st db) = <[id := NEW]> (products db)
        ∧ ((quantity OLD = quantity NEW
            ∧ inventory_history (commit s st db) = inventory_history db
            ∧ daily_inventory_snapshots (commit s st db)
              = daily_inventory_snapshots db)
           ∨ (quantity OLD ≠ quantity NEW
              ∧ inventory_history (commit s st db)
                = inventory_history db ++ [logged s id OLD NEW]
              ∧ daily_inventory_snapshots (commit s st db)
                = upsert_rows (CURRENT_DATE s) id (fst (chosen OLD NEW))
                    (Z.abs (quantity NEW - quantity OLD)) NEW
                    (daily_inventory_snapshots db))))
  ∨ (∃ id,
        st = DELETE_FROM_products id
        ∧ products (commit s st db) = delete id (products db)
        ∧ inventory_history (commit s st db)
          = List.filter (fun r => negb (ih_product_id r =? id)%N) (inventory_history db)
        ∧ daily_inventory_snapshots (commit s st db)
          = List.filter (fun r => negb (ds_product_id r =? id)%N)
              (daily_inventory_snapshots db)).
Proof.
  destruct st as [id row | id NEW | id].
  - unfold commit, exec_statement.
    destruct (negb _); [left; reflexivity|].
    destruct (products db !! id) eqn:Hx; [left; reflexivity|].
    right. left. exists id, row. auto.
  - destruct (commit_update_cases s id NEW db) as [-> | (db' & E & ->)];
      [left; reflexivity|].
    apply exec_update_cases in E as [[_ ->] | (OLD & Hx & Hp & R)];
      [left; reflexivity|].
    right. right. left. exists id, OLD, NEW. auto.
  - right. right. right. exists id. auto.
Qed.

(** ** One snapshot per product and day *)

Lemma NoDup_map_filter {A B} (f : A → B) (g : A → bool) l :
  NoDup (map f l) → NoDup (map f (List.filter g l)).
Proof.
  induction l as [|a l IH]; simpl; [auto|].
  intros H. apply NoDup_cons in H as [Hn Hl].
  destruct (g a); simpl; [|auto].
  apply NoDup_cons. split; [|auto].
  intros Hin. apply Hn.
  apply list_elem_of_In, in_map_iff in Hin as (x & Hx & Hin).
  apply filter_In in Hin as [Hin _].
  apply list_elem_of_In, in_map_iff. eauto.
Qed.

Lemma unique_snapshots_at_most_one p d db :
  unique_snapshots db → (length (snapshots_of p d db) ≤ 1)%nat.
Proof.
  unfold unique_snapshots, snapshots_of.
  induction (daily_inventory_snapshots db) as [|r l IH]; simpl; [lia|].
  intros H. apply NoDup_cons in H as [Hn Hl].
  destruct (snapshot_matches p d r) eqn:Hm; [|auto].
  simpl. apply snapshot_matches_key in Hm.
  destruct (List.filter (snapshot_matches p d) l) as [|r' l'] eqn:Hf; [simpl; lia|].
  exfalso. apply Hn.
  assert (Hin : In r' (List.filter (snapshot_matches p d) l))
    by (rewrite Hf; left; reflexivity).
  apply filter_In in Hin as [Hin Hr'].
  apply snapshot_matches_key in Hr'.
  apply list_elem_of_In, in_map_iff. exists r'. split; [congruence | exact Hin].
Qed.

(** The UNIQUE constraint holds whichever branch runs, hence also for a
    caller acting on a flag that is no longer true. *)
Lemma update_daily_snapshot_branches_unique flag d p t m db db' :
  unique_snapshots db →
  update_daily_snapshot_branches flag d p t m db = Ok db' →
  unique_snapshots db'.
Proof.
  unfold unique_snapshots, update_daily_snapshot_branches. intros Hu H.
  destruct flag, (products db !! p) as [pr|] eqn:Hp.
  - injection H as <-. simpl.
    change (NoDup (map snapshot_key (map (touch p d t m (quantity pr))
                                       (daily_inventory_snapshots db)))).
    now rewrite map_touch_keys.
  - destruct (existsb _ _); [discriminate|]. now injection H as <-.
  - unfold insert_daily_inventory_snapshot in H. simpl in H.
    destruct (existsb _ (daily_inventory_snapshots db)) eqn:He; [discriminate|].
    rewrite Hp in H. injection H as <-. simpl.
    pose proof (upsert_rows_keys_NoDup d p t m pr _ Hu) as Hn.
    unfold upsert_rows in Hn. now rewrite He in Hn.
  - now injection H as <-.
Qed.

Lemma commit_unique s st db :
  unique_snapshots db → unique_snapshots (commit s st db).
Proof.
  intros Hu. unfold unique_snapshots in *.
  destruct (commit_cases s st db)
    as [-> | [(id & row & _ & _ & _ & _ & ->)
           | [(id & OLD & NEW & _ & _ & _ & [(_ & _ & ->) | (_ & _ & ->)])
             | (id & _ & _ & _ & ->)]]]; auto.
  - now apply upsert_rows_keys_NoDup.
  - now apply NoDup_map_filter.
Qed.

Lemma reachable_unique d db : reachable d db → unique_snapshots db.
Proof.
  induction 1 as [d | d d' db _ IH _ | d u st db _ IH].
  - apply NoDup_nil_2.
  - exact IH.
  - now apply commit_unique.
Qed.

Lemma caller_step_unique d c db :
  unique_snapshots db → unique_snapshots (fst (caller_step d c db)).
Proof.
  intros Hu. unfold caller_step.
  destruct (c_snapshot_exists c) as [flag|]; [|exact Hu].
  destruct (update_daily_snapshot_branches _ _ _ _ _ db) as [db'|] eqn:E;
    [|exact Hu].
  simpl. eapply update_daily_snapshot_branches_unique; eassumption.
Qed.

Lemma run_schedule_unique d schedule db callers :
  unique_snapshots db →
  unique_snapshots (fst (run_schedule d schedule db callers)).
Proof.
  revert db callers.
  induction schedule as [|i schedule IH]; intros db callers Hu; simpl; [exact Hu|].
  destruct (callers !! i) as [[c|]|]; try now apply IH.
  pose proof (caller_step_unique d c db Hu) as Hu'.
  destruct (caller_step d c db) as [db' c']. now apply IH.
Qed.

(** C8.  In every database reached by committed statements there is at most
    one snapshot row per product and date; and it stays so when any number of
    callers of [update_daily_snapshot] run concurrently, in whatever order
    their reads of [v_snapshot_exists] and their writes interleave: of two
    callers that both found no snapshot for the day, the second to insert is
    stopped by the UNIQUE constraint. *)
Theorem one_snapshot_per_product_and_day d db schedule callers p d' :
  reachable d db →
  (length (snapshots_of p d' db) ≤ 1)%nat
  ∧ (length (snapshots_of p d' (fst (run_schedule d schedule db callers))) ≤ 1)%nat.
Proof.
  intros Hr. apply reachable_unique in Hr.
  split; apply unique_snapshots_at_most_one;
    [exact Hr | now apply run_schedule_unique].
Qed.


Lemma one_snapshot_per_product_and_day_witness :
  (length (snapshots_of flour 10%Z
             (fst (run_schedule 10%Z [0; 1; 0; 1] day_start
                     [Some (purchase_of 5); Some (purchase_of 3)]))) ≤ 1)%nat.
Proof.
  apply (one_snapshot_per_product_and_day 10 day_start [0; 1; 0; 1]%nat
           [Some (purchase_of 5); Some (purchase_of 3)] flour 10).
  apply (reachable_commit 10 (Some 7%N)), reachable_empty.
Defined.

(** Both callers read "no snapshot" before either writes: the first insert
    creates the row, the second is refused and rolled back. *)
Example racing_first_writes :
  map (fun r => (ds_product_id r, snapshot_date r, purchases r))
    (daily_inventory_snapshots
       (fst (run_schedule 10 [0; 1; 0; 1]%nat day_start
               [Some (purchase_of 5); Some (purchase_of 3)])))
  = [(flour, 10, 5)].
Proof. vm_compute. reflexivity. Qed.

(** ** Closing stock *)

Lemma elem_of_upsert_rows d p t m pr rows r :
  r ∈ upsert_rows d p t m pr rows →
  (∃ r0, r0 ∈ rows ∧ r = touch p d t m (quantity pr) r0)
  ∨ r = new_snapshot_row p d t m pr.
Proof.
  unfold upsert_rows. destruct (existsb _ rows) eqn:He; intros Hin.
  - left. apply list_elem_of_In, in_map_iff in Hin as (r0 & <- & Hin).
    exists r0. split; [now apply list_elem_of_In | reflexivity].
  - apply elem_of_app in Hin as [Hin | Hin].
    + left. exists r. split; [exact Hin|]. symmetry. apply touch_other.
      destruct (snapshot_matches p d r) eqn:E; [|reflexivity].
      assert (existsb (snapshot_matches p d) rows = true)
        by (apply existsb_exists; exists r; split;
            [now apply list_elem_of_In | exact E]).
      congruence.
    + right. now apply list_elem_of_singleton in Hin.
Qed.

Lemma commit_closing_fresh d u st db :
  closing_fresh d db →
  closing_fresh d (commit {| CURRENT_DATE := d; auth_uid := u |} st db).
Proof.
  intros Hc.
  destruct (commit_cases {| CURRENT_DATE := d; auth_uid := u |} st db)
    as [-> | [(id & row & _ & Hx & Hp & _ & Hs)
           | [(id & OLD & NEW & _ & Hx & Hp & [(Hq & _ & Hs) | (Hq & _ & Hs)])
             | (id & _ & Hp & _ & Hs)]]]; [exact Hc | | | |];
    intros r Hr; rewrite Hs in Hr; rewrite Hp.
  - destruct (Hc r Hr) as [Hle Hd]. split; [exact Hle|]. intros E.
    specialize (Hd E). rewrite lookup_insert_ne; [exact Hd|].
    intros Heq. rewrite <- Heq, Hx in Hd. discriminate.
  - destruct (Hc r Hr) as [Hle Hd]. split; [exact Hle|]. intros E.
    specialize (Hd E).
    destruct (decide (id = ds_product_id r)) as [Heq | Hne].
    + rewrite <- Heq in *. rewrite lookup_insert_eq. rewrite Hx in Hd.
      simpl in *. congruence.
    + now rewrite lookup_insert_ne.
  - simpl in Hr. apply elem_of_upsert_rows in Hr as [(r0 & Hr0 & ->) | ->].
    + destruct (Hc r0 Hr0) as [Hle Hd]. unfold touch.
      destruct (snapshot_matches id d r0) eqn:Hm.
      * apply snapshot_matches_spec in Hm as [Hid Hdt]. simpl.
        split; [exact Hle|]. intros _. rewrite Hid, lookup_insert_eq. reflexivity.
      * split; [exact Hle|]. intros E. specialize (Hd E).
        rewrite lookup_insert_ne; [exact Hd|]. intros Heq.
        assert (snapshot_matches id d r0 = true)
          by (apply snapshot_matches_spec; auto).
        congruence.
    + simpl. split; [lia|]. intros _. rewrite lookup_insert_eq. reflexivity.
  - apply list_elem_of_In, filter_In in Hr as [Hr Hne].
    apply list_elem_of_In in Hr. destruct (Hc r Hr) as [Hle Hd].
    split; [exact Hle|]. intros E. specialize (Hd E).
    rewrite lookup_delete_ne; [exact Hd|].
    apply negb_true_iff, N.eqb_neq in Hne. congruence.
Qed.

Lemma reachable_closing_fresh d db : reachable d db → closing_fresh d db.
Proof.
  induction 1 as [d | d d' db _ IH Hle | d u st db _ IH].
  - intros r Hr. now apply not_elem_of_nil in Hr.
  - intros r Hr. destruct (IH r Hr) as [Hd Hq]. split; [lia|].
    intros E. apply Hq. lia.
  - now apply commit_closing_fresh.
Qed.



(** ** The ledger of a product *)

Lemma continuous_snoc l e :
  continuous l →
  (∀ e0, last l = Some e0 → quantity_before e = quantity_after e0) →
  continuous (l ++ [e]).
Proof.
  intros Hl He i e1 e2 H1 H2.
  destruct (decide (S i < length l)%nat) as [Hlt | Hge].
  - rewrite lookup_app_l in H1 by lia. rewrite lookup_app_l in H2 by lia.
    eapply Hl; eassumption.
  - destruct (decide (S i = length l)) as [Heq | Hne].
    + rewrite lookup_app_l in H1 by lia.
      rewrite lookup_app_r in H2 by lia.
      replace (S i - length l)%nat with 0%nat in H2 by lia.
      injection H2 as <-. apply He.
      rewrite last_lookup. rewrite <- Heq. exact H1.
    + apply lookup_lt_Some in H2. rewrite length_app in H2. simpl in H2. lia.
Qed.

Lemma filter_filter_other (p id : uuid) (l : list inventory_history_row) :
  List.filter (fun r => (ih_product_id r =? p)%N)
    (List.filter (fun r => negb (ih_product_id r =? id)%N) l)
  = if (p =? id)%N then [] else List.filter (fun r => (ih_product_id r =? p)%N) l.
Proof.
  induction l as [|r l IH]; simpl; [now destruct (p =? id)%N|].
  destruct (N.eqb_spec (ih_product_id r) id) as [E | E]; simpl.
  - rewrite IH. destruct (N.eqb_spec p id) as [E' | E']; [reflexivity|].
    destruct (N.eqb_spec (ih_product_id r) p); [congruence | reflexivity].
  - destruct (N.eqb_spec (ih_product_id r) p) as [E1 | E1]; rewrite IH.
    + destruct (N.eqb_spec p id); [congruence | reflexivity].
    + reflexivity.
Qed.

Lemma continuous_nil : continuous [].
Proof. intros i e1 e2 H. discriminate. Qed.

Lemma commit_ledger_consistent s st db :
  ledger_consistent db → ledger_consistent (commit s st db).
Proof.
  intros [Hid Hch].
  destruct (commit_cases s st db)
    as [-> | [(id & row & _ & Hx & Hp & Hh & _)
           | [(id & OLD & NEW & _ & Hx & Hp & [(Hq & Hh & _) | (Hq & Hh & _)])
             | (id & _ & Hp & Hh & _)]]]; [split; assumption | | | |];
    (split; [intros e He; rewrite Hh in He | intros p; unfold entries_of; rewrite Hh, Hp]).
  - auto.
  - destruct (Hch p) as [Hc Hl]. split; [exact Hc|]. intros e He.
    specialize (Hl e He). rewrite lookup_insert_ne; [exact Hl|].
    intros Heq. rewrite <- Heq, Hx in Hl. discriminate.
  - auto.
  - destruct (Hch p) as [Hc Hl]. split; [exact Hc|]. intros e He.
    specialize (Hl e He).
    destruct (decide (id = p)) as [Heq | Hne].
    + rewrite <- Heq in *. rewrite lookup_insert_eq. rewrite Hx in Hl.
      simpl in *. congruence.
    + now rewrite lookup_insert_ne.
  - apply elem_of_app in He as [He | He]; [auto|].
    apply list_elem_of_singleton in He. subst e. simpl. lia.
  - destruct (Hch p) as [Hc Hl]. fold (entries_of p db) in *.
    rewrite List.filter_app. simpl.
    destruct (N.eqb_spec id p) as [Heq | Hne].
    + subst p. split.
      * apply continuous_snoc; [exact Hc|]. intros e0 He0.
        specialize (Hl e0 He0). rewrite Hx in Hl. simpl in *. congruence.
      * intros e He. rewrite last_snoc in He. injection He as <-.
        rewrite lookup_insert_eq. reflexivity.
    + rewrite app_nil_r. split; [exact Hc|]. intros e He.
      rewrite lookup_insert_ne by exact Hne. auto.
  - apply list_elem_of_In, filter_In in He as [He _].
    apply Hid. now apply list_elem_of_In.
  - rewrite filter_filter_other. destruct (N.eqb_spec p id) as [Heq | Hne].
    + split; [apply continuous_nil | discriminate].
    + destruct (Hch p) as [Hc Hl]. split; [exact Hc|]. intros e He.
      rewrite lookup_delete_ne by congruence. auto.
Qed.

Lemma reachable_ledger_consistent d db : reachable d db → ledger_consistent db.
Proof.
  induction 1 as [d | d d' db _ IH _ | d u st db _ IH].
  - split; [intros e He; now apply not_elem_of_nil in He|].
    intros p. split; [apply continuous_nil | discriminate].
  - exact IH.
  - now apply commit_ledger_consistent.
Qed.

(** *** Rows under their created_at *)

Lemma map_filter_comm {A B} (f : A → B) (g : B → bool) (l : list A) :
  map f (List.filter (fun x => g (f x)) l) = List.filter g (map f l).
Proof.
  induction l as [|a l IH]; simpl; [reflexivity|].
  destruct (g (f a)); simpl; now rewrite IH.
Qed.

Lemma lookup_map {A B} (f : A → B) (l : list A) (i : nat) :
  map f l !! i = f <$> l !! i.
Proof. exact (list_lookup_fmap f l i). Qed.

Lemma commit_appends s st db :
  (∀ id, st ≠ DELETE_FROM_products id) →
  ∃ es, inventory_history (commit s st db) = inventory_history db ++ es.
Proof.
  intros Hst.
  destruct (commit_cases s st db)
    as [-> | [(id & row & _ & _ & _ & Hh & _)
           | [(id & OLD & NEW & _ & _ & _ & [(_ & Hh & _) | (_ & Hh & _)])
             | (id & Est & _)]]].
  - exists []. now rewrite app_nil_r.
  - exists []. now rewrite app_nil_r.
  - exists []. now rewrite app_nil_r.
  - eexists. exact Hh.
  - now apply Hst in Est.
Qed.

Lemma stamped_entries s (es : list inventory_history_row) :
  map entry (map (fun r => {| created_at := s; entry := r |}) es) = es.
Proof. induction es as [|e es IH]; simpl; [reflexivity | now rewrite IH]. Qed.

Lemma commit_transaction_entries t w :
  map entry (snd w) = inventory_history (fst w) →
  map entry (snd (commit_transaction t w))
  = inventory_history (fst (commit_transaction t w)).
Proof.
  intros Hw. unfold commit_transaction. cbn [fst snd].
  destruct (statement_of t) as [id row | id NEW | id] eqn:Est.
  - destruct (commit_appends (session_of t) (INSERT_INTO_products id row) (fst w))
      as [es Hes]; [discriminate|].
    now rewrite Hes, drop_app_length, map_app, stamped_entries, Hw.
  - destruct (commit_appends (session_of t) (UPDATE_products id NEW) (fst w))
      as [es Hes]; [discriminate|].
    now rewrite Hes, drop_app_length, map_app, stamped_entries, Hw.
  - unfold commit, exec_statement. cbn [inventory_history]. rewrite <- Hw.
    apply (map_filter_comm entry (fun r => negb (ih_product_id r =? id)%N)).
Qed.

Lemma run_transactions_snoc ts t :
  run_transactions (ts ++ [t]) = commit_transaction t (run_transactions ts).
Proof. unfold run_transactions. now rewrite fold_left_app. Qed.

Lemma run_transactions_consistent ts :
  map entry (snd (run_transactions ts)) = inventory_history (fst (run_transactions ts))
  ∧ ledger_consistent (fst (run_transactions ts)).
Proof.
  induction ts as [|t ts [IH1 IH2]] using rev_ind.
  - split; [reflexivity|].
    apply (reachable_ledger_consistent 0), reachable_empty.
  - rewrite run_transactions_snoc. split.
    + now apply commit_transaction_entries.
    + unfold commit_transaction. cbn [fst]. now apply commit_ledger_consistent.
Qed.

Lemma written_for_entries p w :
  map entry (snd w) = inventory_history (fst w) →
  map entry (written_for p w) = entries_of p (fst w).
Proof.
  intros Hw. unfold written_for, entries_of. rewrite <- Hw.
  apply (map_filter_comm entry (fun r => (ih_product_id r =? p)%N)).
Qed.

(** Rows whose [created_at] increase in the order written come back from
    [ORDER BY created_at] in that order. *)
Lemma order_by_created_at_sorted l :
  created_at_increasing l = true → order_by_created_at l = l.
Proof.
  induction l as [|a l IH]; [reflexivity|]. intros H.
  unfold order_by_created_at in *. cbn [foldr].
  destruct l as [|b l]; [reflexivity|].
  cbn [created_at_increasing] in H. apply andb_prop in H as [Hab H].
  rewrite (IH H). cbn [insert_by_created_at]. apply Z.ltb_lt in Hab.
  now replace (created_at a <=? created_at b) with true
    by (symmetry; apply Z.leb_le; lia).
Qed.

(** C1, as stated, fails.  [created_at] is the time at which the writing
    transaction started.  Of two changes of one product, from 100 to 90 by
    a transaction started at 2 and then from 90 to 80 by a transaction
    started at 1, the entries ordered by creation time are (90, 80) followed
    by (100, 90): the later one starts at 100, the earlier one ends at 80. *)
Lemma overlapping_writers_break_created_at_order :
  map (fun e => (created_at e, quantity_before (entry e), quantity_after (entry e)))
    (ledger_of flour (run_transactions overlapping_writers))
  = [(1, 90, 80); (2, 100, 90)]
  ∧ ¬ continuous (map entry (ledger_of flour (run_transactions overlapping_writers))).
Proof.
  split; [vm_compute; reflexivity|].
  intros H.
  assert (E : ∃ e1 e2,
             map entry (ledger_of flour (run_transactions overlapping_writers)) !! 0%nat
             = Some e1
             ∧ map entry (ledger_of flour (run_transactions overlapping_writers)) !! 1%nat
               = Some e2
             ∧ quantity_before e2 = 100 ∧ quantity_after e1 = 80).
  { eexists. eexists. repeat split; vm_compute; reflexivity. }
  destruct E as (e1 & e2 & H1 & H2 & Hb & Ha).
  specialize (H 0%nat e1 e2 H1 H2). lia.
Qed.

(** C1, amended.  After any sequence of transactions, each ledger entry
    satisfies quantity_after = quantity_before + quantity_change; of any
    two consecutive entries of one product, in the order in which they were
    written, the later starts at the quantity at which the earlier ends;
    and the same holds in the order of creation time whenever the creation
    times of the product's entries increase in the order written. *)
Theorem ledger_identity_and_continuity ts p :
  (∀ e, e ∈ snd (run_transactions ts) →
        quantity_after (entry e)
        = quantity_before (entry e) + quantity_change (entry e))
  ∧ (∀ (i : nat) e1 e2,
        written_for p (run_transactions ts) !! i = Some e1 →
        written_for p (run_transactions ts) !! S i = Some e2 →
        quantity_before (entry e2) = quantity_after (entry e1))
  ∧ (created_at_increasing (written_for p (run_transactions ts)) = true →
     ∀ (i : nat) e1 e2,
       ledger_of p (run_transactions ts) !! i = Some e1 →
       ledger_of p (run_transactions ts) !! S i = Some e2 →
       quantity_before (entry e2) = quantity_after (entry e1)).
Proof.
  destruct (run_transactions_consistent ts) as [Hw [Hid Hch]].
  assert (Hc : ∀ (i : nat) e1 e2,
             written_for p (run_transactions ts) !! i = Some e1 →
             written_for p (run_transactions ts) !! S i = Some e2 →
             quantity_before (entry e2) = quantity_after (entry e1)).
  { intros i e1 e2 H1 H2. destruct (Hch p) as [Hp _].
    rewrite <- (written_for_entries p _ Hw) in Hp.
    apply (Hp i); rewrite lookup_map; [now rewrite H1 | now rewrite H2]. }
  split; [|split; [exact Hc|]].
  - intros e He. apply Hid. rewrite <- Hw.
    apply list_elem_of_In, in_map, list_elem_of_In, He.
  - intros Hs. unfold ledger_of. rewrite (order_by_created_at_sorted _ Hs). exact Hc.
Qed.

Lemma ledger_identity_and_continuity_witness :
  ∃ e1 e2,
    ledger_of flour (run_transactions successive_writers) !! 0%nat = Some e1
    ∧ ledger_of flour (run_transactions successive_writers) !! 1%nat = Some e2
    ∧ quantity_after (entry e1) = 90
    ∧ quantity_before (entry e2) = quantity_after (entry e1).
Proof.
  destruct (ledger_identity_and_continuity successive_writers flour) as (_ & _ & H).
  eexists. eexists. split; [vm_compute; reflexivity|].
  split; [vm_compute; reflexivity|]. split; [reflexivity|].
  apply (H eq_refl 0%nat); vm_compute; reflexivity.
Defined.

(** ** The consolidated schema file against the migrations

    The bodies kept in the consolidated schema file differ from the ones the
    migrations install: a decrease is logged as an 'adjustment', no snapshot
    is written by the trigger, and a 'consumption' passed to the snapshot
    procedure moves no column. *)

Remark consolidated_logs_adjustments_only s id OLD NEW db db' :
  Consolidated.log_inventory_change s TG_UPDATE id OLD NEW db = Ok db' →
  daily_inventory_snapshots db' = daily_inventory_snapshots db
  ∧ ∃ es, inventory_history db' = inventory_history db ++ es
          ∧ ∀ e, e ∈ es → activity_type e = "adjustment".
Proof.
  unfold Consolidated.log_inventory_change. intros H.
  destruct (is_update TG_UPDATE && negb (quantity OLD =? quantity NEW)).
  - destruct (int4mi (quantity NEW) (quantity OLD)) as [c|]; [|discriminate].
    simpl in H. unfold insert_inventory_history in H. simpl in H.
    destruct (products db !! id); [|discriminate]. injection H as <-. simpl.
    split; [reflexivity|]. eexists. split; [reflexivity|].
    intros e He. apply list_elem_of_singleton in He. now subst e.
  - injection H as <-. split; [reflexivity|]. exists [].
    split; [now rewrite app_nil_r|]. intros e He. now apply not_elem_of_nil in He.
Qed.

Remark consolidated_ignores_consumption m q r :
  sales (Consolidated.update_snapshot_row "consumption" m q r) = sales r
  ∧ sales (update_snapshot_row "consumption" m q r) = sales r + m.
Proof. split; reflexivity. Qed.

(** * Further properties of the ledger and the snapshots *)

(** ** The quantity and the recorded changes *)

Lemma total_change_snoc l e :
  total_change (l ++ [e]) = total_change l + quantity_change e.
Proof.
  unfold total_change. induction l as [|a l IH]; simpl; [lia|]. rewrite IH. lia.
Qed.

Lemma total_change_Permutation l l' :
  l ≡ₚ l' → total_change l = total_change l'.
Proof.
  unfold total_change.
  induction 1 as [|a l l' _ IH|a b l|l1 l2 l3 _ IH1 _ IH2]; simpl;
    [reflexivity | now rewrite IH | lia | congruence].
Qed.

(** A statement that is not the deletion of the product keeps its quantity
    equal to a fixed quantity plus the changes recorded for it. *)
Lemma commit_keeps_balance s st db p q0 :
  deletes p st = false →
  (∃ pr, products db !! p = Some pr
         ∧ quantity pr = q0 + total_change (entries_of p db)) →
  ∃ pr, products (commit s st db) !! p = Some pr
        ∧ quantity pr = q0 + total_change (entries_of p (commit s st db)).
Proof.
  intros Hd (pr & Hp & Hq).
  destruct (commit_cases s st db)
    as [-> | [(id & row & _ & Hx & Hp' & Hh & _)
           | [(id & OLD & NEW & _ & Hx & Hp' & [(Hq' & Hh & _) | (Hq' & Hh & _)])
             | (id & Est & Hp' & Hh & _)]]];
    [eauto | | | |]; unfold entries_of in *; rewrite Hp', Hh.
  - exists pr. split; [|exact Hq].
    rewrite lookup_insert_ne; [exact Hp | congruence].
  - destruct (decide (id = p)) as [-> | Hne].
    + exists NEW. rewrite lookup_insert_eq. split; [reflexivity|].
      rewrite Hx in Hp. injection Hp as ->. lia.
    + exists pr. now rewrite lookup_insert_ne.
  - rewrite List.filter_app. cbn [List.filter logged ih_product_id].
    destruct (N.eqb_spec id p) as [-> | Hne].
    + exists NEW. rewrite lookup_insert_eq. split; [reflexivity|].
      rewrite Hx in Hp. injection Hp as ->.
      rewrite total_change_snoc. unfold logged. cbn [quantity_change]. lia.
    + exists pr. rewrite lookup_insert_ne, app_nil_r by exact Hne. auto.
  - subst st. cbn [deletes] in Hd. apply N.eqb_neq in Hd.
    exists pr. rewrite lookup_delete_ne by exact Hd. split; [exact Hp|].
    rewrite filter_filter_other.
    now replace (p =? id)%N with false by (symmetry; apply N.eqb_neq; congruence).
Qed.

(** X1.  From a state in which a product has no ledger entry, and through
    any statements of any sessions that do not delete it, the quantity of
    the product equals the quantity it had in that state plus the sum of the
    signed changes recorded for it, in whatever order the entries are
    read. *)
Theorem quantity_is_initial_plus_changes steps p pr db l :
  products db !! p = Some pr →
  entries_of p db = [] →
  forallb (fun step => negb (deletes p (snd step))) steps = true →
  l ≡ₚ entries_of p (commit_each steps db) →
  quantity <$> products (commit_each steps db) !! p
  = Some (quantity pr + total_change l).
Proof.
  intros Hp He Hs Hl. rewrite (total_change_Permutation _ _ Hl). clear l Hl.
  assert (H : ∃ pr', products (commit_each steps db) !! p = Some pr'
                     ∧ quantity pr'
                       = quantity pr
                         + total_change (entries_of p (commit_each steps db))).
  { unfold commit_each.
    assert (H0 : ∃ pr', products db !! p = Some pr'
                        ∧ quantity pr' = quantity pr + total_change (entries_of p db))
      by (exists pr; rewrite He; simpl; split; [exact Hp | lia]).
    clear Hp He. revert db H0.
    induction steps as [|[s st] steps IH]; intros db H0; [exact H0|].
    cbn [forallb snd] in Hs. apply andb_prop in Hs as [Hd Hs].
    cbn [fold_left fst snd]. apply (IH Hs).
    apply commit_keeps_balance; [|exact H0].
    now destruct (deletes p st). }
  destruct H as (pr' & -> & Hq). simpl. now rewrite Hq.
Qed.

Lemma quantity_is_initial_plus_changes_witness :
  quantity
  <$> products
        (commit_each
           [(clerk, UPDATE_products flour (stocked 120));
            ({| CURRENT_DATE := 11; auth_uid := Some 8%N |},
             UPDATE_products flour (stocked 90));
            (clerk, INSERT_INTO_products flour (stocked 5))]
           day_start) !! flour
  = Some (100 + (-30 + (20 + 0))).
Proof.
  apply (quantity_is_initial_plus_changes
           [(clerk, UPDATE_products flour (stocked 120));
            ({| CURRENT_DATE := 11; auth_uid := Some 8%N |},
             UPDATE_products flour (stocked 90));
            (clerk, INSERT_INTO_products flour (stocked 5))]
           flour (stocked 100) day_start
           [logged {| CURRENT_DATE := 11; auth_uid := Some 8%N |} flour
              (stocked 120) (stocked 90);
            logged clerk flour (stocked 100) (stocked 120)]).
  - vm_compute. reflexivity.
  - vm_compute. reflexivity.
  - vm_compute. reflexivity.
  - etransitivity; [apply Permutation_swap|]. vm_compute. reflexivity.
Defined.

(** ** The rows the trigger writes *)

Lemma logged_trigger_written s id OLD NEW :
  quantity OLD ≠ quantity NEW → trigger_written (logged s id OLD NEW).
Proof.
  intros Hne. unfold trigger_written, logged, chosen. simpl.
  split; [lia|]. split; [|auto].
  destruct (Z.ltb_spec (quantity NEW) (quantity OLD));
    destruct (Z.ltb_spec (quantity NEW - quantity OLD) 0); simpl; auto; lia.
Qed.

(** X2.  Every ledger entry of a reachable database has the shape the
    trigger gives it: its change is not zero, it is a 'consumption' when the
    change is negative and an 'adjustment' otherwise, and its reference is
    'manual' without a reference id. *)
Theorem ledger_holds_trigger_rows_only d db e :
  reachable d db → e ∈ inventory_history db → trigger_written e.
Proof.
  intros Hr. revert e.
  induction Hr as [d | d d' db _ IH _ | d u st db _ IH]; intros e He.
  - now apply not_elem_of_nil in He.
  - now apply IH.
  - destruct (commit_cases {| CURRENT_DATE := d; auth_uid := u |} st db)
      as [E | [(id & row & _ & _ & _ & Hh & _)
             | [(id & OLD & NEW & _ & _ & _ & [(_ & Hh & _) | (Hq & Hh & _)])
               | (id & _ & _ & Hh & _)]]].
    + rewrite E in He. now apply IH.
    + rewrite Hh in He. now apply IH.
    + rewrite Hh in He. now apply IH.
    + rewrite Hh in He. apply elem_of_app in He as [He | He]; [now apply IH|].
      apply list_elem_of_singleton in He. subst e.
      now apply logged_trigger_written.
    + rewrite Hh in He. apply list_elem_of_In, filter_In in He as [He _].
      apply IH. now apply list_elem_of_In.
Qed.

Lemma ledger_holds_trigger_rows_only_witness :
  trigger_written (logged clerk flour (stocked 120) (stocked 90)).
Proof.
  apply (ledger_holds_trigger_rows_only 10 after_invoice).
  - do 2 apply (reachable_commit 10 (Some 7%N)).
    apply (reachable_commit 10 (Some 7%N)), reachable_empty.
  - apply list_elem_of_In. vm_compute. auto.
Defined.

(** ** Foreign keys *)

Lemma touch_product p d t m q r :
  ds_product_id (touch p d t m q r) = ds_product_id r.
Proof. unfold touch. destruct (snapshot_matches p d r); reflexivity. Qed.

Lemma commit_references_hold s st db :
  references_hold db → references_hold (commit s st db).
Proof.
  intros [Hh Hs].
  destruct (commit_cases s st db)
    as [-> | [(id & row & _ & Hx & Hp & Eh & Es)
           | [(id & OLD & NEW & _ & Hx & Hp & [(_ & Eh & Es) | (_ & Eh & Es)])
             | (id & _ & Hp & Eh & Es)]]]; [split; assumption | | | |];
    (split; [intros e He; rewrite Eh in He | intros r Hr; rewrite Es in Hr]);
    rewrite Hp.
  - rewrite lookup_insert_is_Some. destruct (decide (id = ih_product_id e)); auto.
  - rewrite lookup_insert_is_Some. destruct (decide (id = ds_product_id r)); auto.
  - rewrite lookup_insert_is_Some. destruct (decide (id = ih_product_id e)); auto.
  - rewrite lookup_insert_is_Some. destruct (decide (id = ds_product_id r)); auto.
  - rewrite lookup_insert_is_Some.
    apply elem_of_app in He as [He | He].
    + destruct (decide (id = ih_product_id e)); auto.
    + apply list_elem_of_singleton in He. subst e. left. reflexivity.
  - rewrite lookup_insert_is_Some.
    apply elem_of_upsert_rows in Hr as [(r0 & Hr0 & ->) | ->].
    + rewrite touch_product.
      destruct (decide (id = ds_product_id r0)); auto.
    + left. reflexivity.
  - apply list_elem_of_In, filter_In in He as [He Hne].
    apply negb_true_iff, N.eqb_neq in Hne.
    rewrite lookup_delete_ne by congruence. apply Hh. now apply list_elem_of_In.
  - apply list_elem_of_In, filter_In in Hr as [Hr Hne].
    apply negb_true_iff, N.eqb_neq in Hne.
    rewrite lookup_delete_ne by congruence. apply Hs. now apply list_elem_of_In.
Qed.

(** X3.  In every reachable database each ledger entry and each snapshot
    row belongs to a product that exists: entries and snapshots are written
    for the updated row only, and deleting a product takes its entries and
    snapshots with it. *)
Theorem derived_rows_reference_products d db :
  reachable d db →
  (∀ e, e ∈ inventory_history db → is_Some (products db !! ih_product_id e))
  ∧ (∀ r, r ∈ daily_inventory_snapshots db →
          is_Some (products db !! ds_product_id r)).
Proof.
  induction 1 as [d | d d' db _ IH _ | d u st db _ IH].
  - split; intros x Hx; now apply not_elem_of_nil in Hx.
  - exact IH.
  - now apply commit_references_hold.
Qed.

Lemma derived_rows_reference_products_witness :
  Forall (fun e => is_Some (products after_edits !! ih_product_id e))
    (inventory_history after_edits).
Proof.
  apply Forall_forall.
  apply (derived_rows_reference_products 10 after_edits).
  do 4 apply (reachable_commit 10 (Some 7%N)).
  apply (reachable_commit 10 (Some 7%N)), reachable_empty.
Defined.

(** ** Changes too large for [integer] *)

(** X4.  An UPDATE whose new quantity differs from the old one by more
    than 2147483647 in absolute value cannot be committed, although the new
    quantity may itself be a valid [integer]: the trigger fails on
    [NEW.quantity - OLD.quantity], or on [ABS] when the difference is
    -2147483648, the statement is rolled back and the database stays as it
    was. *)
Theorem oversized_change_is_rolled_back s id OLD NEW db :
  products db !! id = Some OLD →
  ¬ (- int4_max ≤ quantity NEW - quantity OLD ≤ int4_max) →
  (∃ e, exec_statement s (UPDATE_products id NEW) db = Err e)
  ∧ commit s (UPDATE_products id NEW) db = db.
Proof.
  intros Hx Hr.
  assert (Hne : quantity OLD ≠ quantity NEW).
  { intros E. apply Hr. rewrite E. unfold int4_max. lia. }
  assert (He : ∃ e, exec_statement s (UPDATE_products id NEW) db = Err e).
  { unfold exec_statement. rewrite Hx.
    destruct (negb _); [eauto|].
    now apply log_inventory_change_overflow. }
  split; [exact He|]. destruct He as [e He]. unfold commit. now rewrite He.
Qed.

Lemma oversized_change_is_rolled_back_witness :
  commit clerk (UPDATE_products flour (stocked (-2147483648)))
    (commit clerk (INSERT_INTO_products flour (stocked 0)) empty_database)
  = commit clerk (INSERT_INTO_products flour (stocked 0)) empty_database.
Proof.
  apply (oversized_change_is_rolled_back clerk flour (stocked 0)).
  - vm_compute. reflexivity.
  - vm_compute. intros [H _]. apply H. reflexivity.
Defined.

(** ** What an UPDATE leaves alone *)




(** ** The columns of a snapshot in the trigger path *)

Lemma chosen_sign OLD NEW :
  quantity OLD ≠ quantity NEW →
  (fst (chosen OLD NEW) = "consumption"
   ∧ Z.abs (quantity NEW - quantity OLD) = quantity OLD - quantity NEW
   ∧ quantity NEW < quantity OLD)
  ∨ (fst (chosen OLD NEW) = "adjustment"
     ∧ Z.abs (quantity NEW - quantity OLD) = quantity NEW - quantity OLD
     ∧ quantity OLD < quantity NEW).
Proof.
  intros Hne. unfold chosen.
  destruct (Z.ltb_spec (quantity NEW) (quantity OLD)); simpl; [left | right];
    repeat split; lia.
Qed.

Lemma upserted_shape d id OLD NEW rows r :
  quantity OLD ≠ quantity NEW →
  (∀ r0, r0 ∈ rows → snapshot_shape r0) →
  r ∈ upsert_rows d id (fst (chosen OLD NEW))
        (Z.abs (quantity NEW - quantity OLD)) NEW rows →
  snapshot_shape r.
Proof.
  intros Hne Hrows Hr.
  apply elem_of_upsert_rows in Hr as [(r0 & Hr0 & ->) | ->].
  - specialize (Hrows r0 Hr0). unfold touch.
    destruct (snapshot_matches id d r0); [|exact Hrows].
    destruct Hrows as (H1 & H2 & H3 & H4 & H5 & H6).
    destruct (chosen_sign OLD NEW Hne) as [(-> & -> & Hlt) | (-> & -> & Hlt)];
      unfold snapshot_shape; simpl; repeat split; lia.
  - destruct (chosen_sign OLD NEW Hne) as [(-> & -> & Hlt) | (-> & -> & Hlt)];
      unfold snapshot_shape; simpl; repeat split; lia.
Qed.

(** X6.  In every reachable database each snapshot row has purchases = 0
    (the trigger never passes the category 'purchase'), non-negative sales
    and adjustments of which one at least is positive, and a max_stock that
    is at least the opening and the closing stock. *)
Theorem snapshot_columns_in_trigger_path d db r :
  reachable d db →
  r ∈ daily_inventory_snapshots db →
  purchases r = 0
  ∧ 0 ≤ sales r
  ∧ 0 ≤ adjustments r
  ∧ 0 < sales r + adjustments r
  ∧ opening_stock r ≤ max_stock r
  ∧ closing_stock r ≤ max_stock r.
Proof.
  intros Hr. revert r.
  induction Hr as [d | d d' db _ IH _ | d u st db _ IH]; intros r Hin.
  - now apply not_elem_of_nil in Hin.
  - now apply IH.
  - destruct (commit_cases {| CURRENT_DATE := d; auth_uid := u |} st db)
      as [E | [(id & row & _ & _ & _ & _ & Es)
             | [(id & OLD & NEW & _ & _ & _ & [(_ & _ & Es) | (Hq & _ & Es)])
               | (id & _ & _ & _ & Es)]]].
    + rewrite E in Hin. now apply IH.
    + rewrite Es in Hin. now apply IH.
    + rewrite Es in Hin. now apply IH.
    + rewrite Es in Hin. eapply upserted_shape; eassumption.
    + rewrite Es in Hin. apply list_elem_of_In, filter_In in Hin as [Hin _].
      apply IH. now apply list_elem_of_In.
Qed.

Lemma snapshot_columns_in_trigger_path_witness :
  ∃ r, r ∈ daily_inventory_snapshots after_edits
       ∧ purchases r = 0 ∧ closing_stock r ≤ max_stock r.
Proof.
  exists {| ds_product_id := flour; snapshot_date := 10; opening_stock := 120;
            purchases := 0; sales := 35; adjustments := 30;
            closing_stock := 95; max_stock := 120 |}.
  assert (Hin : {| ds_product_id := flour; snapshot_date := 10; opening_stock := 120;
                   purchases := 0; sales := 35; adjustments := 30;
                   closing_stock := 95; max_stock := 120 |}
                ∈ daily_inventory_snapshots after_edits)
    by (apply list_elem_of_In; vm_compute; auto).
  split; [exact Hin|].
  destruct (snapshot_columns_in_trigger_path 10 after_edits _
              ltac:(do 4 apply (reachable_commit 10 (Some 7%N));
                    apply (reachable_commit 10 (Some 7%N)), reachable_empty)
              Hin) as (H1 & _ & _ & _ & _ & H6).
  split; assumption.
Defined.

(** ** The quantity at the start of the day *)

Lemma commit_keeps_day_start d u st p db r :
  closing_fresh d db →
  snapshot_for p d db = Some r →
  deletes p st = false →
  ∃ r', snapshot_for p d (commit {| CURRENT_DATE := d; auth_uid := u |} st db) = Some r'
        ∧ day_start_quantity r' = day_start_quantity r
        ∧ opening_stock r' = opening_stock r.
Proof.
  intros Hc Hf Hd.
  assert (Hsame : ∀ db', daily_inventory_snapshots db' = daily_inventory_snapshots db →
            ∃ r', snapshot_for p d db' = Some r'
                  ∧ day_start_quantity r' = day_start_quantity r
                  ∧ opening_stock r' = opening_stock r).
  { intros db' E. exists r. unfold snapshot_for in *. rewrite E. auto. }
  destruct (commit_cases {| CURRENT_DATE := d; auth_uid := u |} st db)
    as [-> | [(id & row & _ & _ & _ & _ & Es)
           | [(id & OLD & NEW & _ & Hx & _ & [(_ & _ & Es) | (Hq & _ & Es)])
             | (id & -> & _ & _ & Es)]]]; try (now apply Hsame).
  - simpl in Es.
    exists (touch id d (fst (chosen OLD NEW)) (Z.abs (quantity NEW - quantity OLD))
              (quantity NEW) r).
    unfold snapshot_for in *. rewrite Es.
    split; [now apply find_upsert_rows_kept|].
    unfold touch. destruct (snapshot_matches id d r) eqn:Hm; [|auto].
    apply find_some in Hf as [Hin Hp].
    apply snapshot_matches_spec in Hm as [Hid Hdt].
    destruct (Hc r) as [_ Hcl]; [now apply list_elem_of_In|].
    specialize (Hcl Hdt). rewrite Hid, Hx in Hcl. injection Hcl as Hcl.
    unfold day_start_quantity.
    destruct (chosen_sign OLD NEW Hq) as [(-> & -> & Hlt) | (-> & -> & Hlt)];
      simpl; split; auto; lia.
  - exists r. simpl in Hd. unfold snapshot_for in *. rewrite Es.
    rewrite find_filter_keep; [auto|].
    intros x Hx. apply snapshot_matches_spec in Hx as [-> _].
    apply negb_true_iff. rewrite N.eqb_sym. exact Hd.
Qed.

Lemma commit_all_keeps_day_start d u sts p db r :
  closing_fresh d db →
  snapshot_for p d db = Some r →
  forallb (fun st => negb (deletes p st)) sts = true →
  ∃ r', snapshot_for p d (commit_all {| CURRENT_DATE := d; auth_uid := u |} sts db)
        = Some r'
        ∧ day_start_quantity r' = day_start_quantity r
        ∧ opening_stock r' = opening_stock r.
Proof.
  revert db r. induction sts as [|st sts IH]; intros db r Hc Hf Hnd; simpl.
  - exists r. auto.
  - simpl in Hnd. apply andb_true_iff in Hnd as [Hst Hnd].
    apply negb_true_iff in Hst.
    destruct (commit_keeps_day_start d u st p db r Hc Hf Hst) as (r1 & H1 & Hb1 & Ho1).
    destruct (IH _ r1 (commit_closing_fresh d u st db Hc) H1 Hnd)
      as (r2 & H2 & Hb2 & Ho2).
    exists r2. split; [exact H2|]. split; congruence.
Qed.

(** X7.  Through a whole day of statements on a product, from the UPDATE
    that creates the snapshot on, closing_stock - adjustments + sales stays
    at the quantity the product held before that first UPDATE, while
    opening_stock holds the quantity after it; so the balance
    opening + adjustments - sales = closing is off by exactly the first change
    of the day. *)
Theorem snapshot_balance_misses_first_change d u db id OLD NEW sts :
  reachable d db →
  products db !! id = Some OLD →
  snapshot_for id d db = None →
  quantity OLD ≠ quantity NEW →
  int4 (quantity NEW) && int4 (reorder_level NEW) = true →
  - int4_max ≤ quantity NEW - quantity OLD ≤ int4_max →
  forallb (fun st => negb (deletes id st)) sts = true →
  ∃ r,
    snapshot_for id d
      (commit_all {| CURRENT_DATE := d; auth_uid := u |}
         (UPDATE_products id NEW :: sts) db) = Some r
    ∧ closing_stock r - adjustments r + sales r = quantity OLD
    ∧ opening_stock r = quantity NEW
    ∧ opening_stock r + adjustments r - sales r - closing_stock r
      = quantity NEW - quantity OLD.
Proof.
  intros Hr Hx Hs Hne Hi Hrg Hnd. simpl.
  set (s := {| CURRENT_DATE := d; auth_uid := u |}).
  destruct (exec_update_Ok s id OLD NEW db Hx Hi Hne Hrg) as (db' & E & _ & _ & R).
  assert (Ec : commit s (UPDATE_products id NEW) db = db')
    by (unfold commit; now rewrite E).
  assert (Hf : snapshot_for id d db'
               = Some (new_snapshot_row id d (fst (chosen OLD NEW))
                         (Z.abs (quantity NEW - quantity OLD)) NEW)).
  { unfold snapshot_for in *. rewrite R. simpl.
    rewrite find_upsert_rows_same, Hs. reflexivity. }
  assert (Hc : closing_fresh d db').
  { rewrite <- Ec. apply commit_closing_fresh, reachable_closing_fresh, Hr. }
  rewrite Ec.
  destruct (commit_all_keeps_day_start d u sts id db' _ Hc Hf Hnd)
    as (r & H & Hb & Ho).
  exists r. split; [exact H|].
  assert (Hb' : day_start_quantity r = quantity OLD).
  { rewrite Hb. unfold day_start_quantity.
    destruct (chosen_sign OLD NEW Hne) as [(-> & -> & Hlt) | (-> & -> & Hlt)];
      simpl; lia. }
  unfold day_start_quantity in Hb'. simpl in Ho.
  repeat split; lia.
Qed.

Lemma snapshot_balance_misses_first_change_witness :
  ∃ r,
    snapshot_for flour 10 after_edits = Some r
    ∧ closing_stock r - adjustments r + sales r = 100
    ∧ opening_stock r = 120.
Proof.
  destruct (snapshot_balance_misses_first_change 10 (Some 7%N) day_start flour
              (stocked 100) (stocked 120)
              [UPDATE_products flour (stocked 90); UPDATE_products flour (stocked 85);
               UPDATE_products flour (stocked 95)])
    as (r & H & Hb & Ho & _).
  - apply (reachable_commit 10 (Some 7%N)), reachable_empty.
  - vm_compute. reflexivity.
  - vm_compute. reflexivity.
  - vm_compute. discriminate.
  - vm_compute. reflexivity.
  - vm_compute. split; discriminate.
  - vm_compute. reflexivity.
  - exists r. repeat split; assumption.
Defined.

(** ** Successive calls of update_daily_snapshot *)

Lemma existsb_map_touch p d t m q p' d' rows :
  existsb (snapshot_matches p' d') (map (touch p d t m q) rows)
  = existsb (snapshot_matches p' d') rows.
Proof.
  induction rows as [|r rows IH]; simpl; [reflexivity|].
  now rewrite touch_matches, IH.
Qed.

Lemma map_touch_none p d t m q rows :
  existsb (snapshot_matches p d) rows = false →
  map (touch p d t m q) rows = rows.
Proof.
  induction rows as [|r rows IH]; simpl; [reflexivity|].
  intros H. apply orb_false_iff in H as [Hr Hrows].
  rewrite (touch_other _ _ _ _ _ _ Hr), IH by exact Hrows. reflexivity.
Qed.

(** Two upserts in a row, for one product and day. *)
Lemma upsert_rows_twice d p t1 m1 t2 m2 pr rows :
  upsert_rows d p t2 m2 pr (upsert_rows d p t1 m1 pr rows)
  = if existsb (snapshot_matches p d) rows
    then map (fun r => touch p d t2 m2 (quantity pr) (touch p d t1 m1 (quantity pr) r))
           rows
    else rows ++ [update_snapshot_row t2 m2 (quantity pr)
                    (new_snapshot_row p d t1 m1 pr)].
Proof.
  unfold upsert_rows at 2. destruct (existsb _ rows) eqn:He.
  - unfold upsert_rows. rewrite existsb_map_touch, He. apply map_map.
  - unfold upsert_rows. rewrite existsb_app. simpl.
    rewrite new_snapshot_row_matches, orb_true_r.
    rewrite map_app, (map_touch_none _ _ _ _ _ _ He). simpl.
    now rewrite (touch_same _ _ _ _ _ _ (new_snapshot_row_matches p d t1 m1 pr)).
Qed.

Lemma update_daily_snapshot_twice s p t1 m1 t2 m2 db pr :
  products db !! p = Some pr →
  bind (update_daily_snapshot s p t1 m1 db) (update_daily_snapshot s p t2 m2)
  = Ok {| products := products db;
          inventory_history := inventory_history db;
          daily_inventory_snapshots :=
            upsert_rows (CURRENT_DATE s) p t2 m2 pr
              (upsert_rows (CURRENT_DATE s) p t1 m1 pr
                 (daily_inventory_snapshots db)) |}.
Proof.
  intros Hp. rewrite (update_daily_snapshot_upsert _ _ _ _ _ _ Hp). simpl.
  now rewrite (update_daily_snapshot_upsert _ _ _ _ _ pr) by exact Hp.
Qed.

Ltac split_categories :=
  repeat match goal with
         | |- context [String.eqb ?t ?c] => destruct (String.eqb t c)
         end.

Lemma update_snapshot_row_add t m1 m2 q r :
  update_snapshot_row t m2 q (update_snapshot_row t m1 q r)
  = update_snapshot_row t (m1 + m2) q r.
Proof.
  unfold update_snapshot_row. simpl. split_categories; simpl; f_equal; lia.
Qed.

Lemma update_new_snapshot_row_add p d t m1 m2 pr :
  update_snapshot_row t m2 (quantity pr) (new_snapshot_row p d t m1 pr)
  = new_snapshot_row p d t (m1 + m2) pr.
Proof.
  unfold update_snapshot_row, new_snapshot_row. simpl.
  split_categories; simpl; f_equal; lia.
Qed.

Lemma update_snapshot_row_comm t1 m1 t2 m2 q r :
  update_snapshot_row t2 m2 q (update_snapshot_row t1 m1 q r)
  = update_snapshot_row t1 m1 q (update_snapshot_row t2 m2 q r).
Proof.
  unfold update_snapshot_row. simpl. split_categories; simpl; f_equal; lia.
Qed.

Lemma update_new_snapshot_row_comm p d t1 m1 t2 m2 pr :
  update_snapshot_row t2 m2 (quantity pr) (new_snapshot_row p d t1 m1 pr)
  = update_snapshot_row t1 m1 (quantity pr) (new_snapshot_row p d t2 m2 pr).
Proof.
  unfold update_snapshot_row, new_snapshot_row. simpl.
  split_categories; simpl; f_equal; lia.
Qed.

Lemma touch_twice p d t1 m1 t2 m2 q r :
  touch p d t2 m2 q (touch p d t1 m1 q r)
  = if snapshot_matches p d r
    then update_snapshot_row t2 m2 q (update_snapshot_row t1 m1 q r)
    else r.
Proof.
  unfold touch. destruct (snapshot_matches p d r) eqn:Hm.
  - now rewrite snapshot_matches_update, Hm.
  - now rewrite Hm.
Qed.

(** X8.  Two calls of the procedure for the same product, day and category
    have together the effect of a single call with the sum of their
    magnitudes, whether the first of them creates the snapshot or finds it. *)
Theorem upserts_accumulate s p t m1 m2 db pr :
  products db !! p = Some pr →
  bind (update_daily_snapshot s p t m1 db) (update_daily_snapshot s p t m2)
  = update_daily_snapshot s p t (m1 + m2) db.
Proof.
  intros Hp. rewrite (update_daily_snapshot_twice _ _ _ _ _ _ _ _ Hp).
  rewrite (update_daily_snapshot_upsert _ _ _ _ _ _ Hp). do 2 f_equal.
  rewrite upsert_rows_twice. unfold upsert_rows.
  destruct (existsb _ (daily_inventory_snapshots db)).
  - apply map_ext. intros r. rewrite touch_twice. unfold touch.
    destruct (snapshot_matches _ _ r); [apply update_snapshot_row_add | reflexivity].
  - now rewrite update_new_snapshot_row_add.
Qed.

Lemma upserts_accumulate_witness :
  bind (update_daily_snapshot clerk flour "purchase" 5 day_start)
    (update_daily_snapshot clerk flour "purchase" 3)
  = update_daily_snapshot clerk flour "purchase" (5 + 3) day_start.
Proof.
  apply (upserts_accumulate clerk flour "purchase" 5 3 day_start (stocked 100)).
  vm_compute. reflexivity.
Defined.

(** X9.  Two calls of the procedure for the same product and day commute:
    whatever their categories and magnitudes, either order leaves the same
    snapshot table. *)
Theorem upserts_commute s p t1 m1 t2 m2 db pr :
  products db !! p = Some pr →
  bind (update_daily_snapshot s p t1 m1 db) (update_daily_snapshot s p t2 m2)
  = bind (update_daily_snapshot s p t2 m2 db) (update_daily_snapshot s p t1 m1).
Proof.
  intros Hp. rewrite !(update_daily_snapshot_twice _ _ _ _ _ _ _ _ Hp).
  do 2 f_equal. rewrite !upsert_rows_twice.
  destruct (existsb _ (daily_inventory_snapshots db)).
  - apply map_ext. intros r. rewrite !touch_twice.
    destruct (snapshot_matches _ _ r); [apply update_snapshot_row_comm | reflexivity].
  - now rewrite update_new_snapshot_row_comm.
Qed.

Lemma upserts_commute_witness :
  bind (update_daily_snapshot clerk flour "sale" 30 after_receipt)
    (update_daily_snapshot clerk flour "adjustment" 4)
  = bind (update_daily_snapshot clerk flour "adjustment" 4 after_receipt)
      (update_daily_snapshot clerk flour "sale" 30).
Proof.
  apply (upserts_commute clerk flour "sale" 30 "adjustment" 4 after_receipt (stocked 120)).
  vm_compute. reflexivity.
Defined.

(** * Properties of the KOT numbering *)

(** ** Texts *)

Lemma append_cancel_l (p x y : string) : (p ++ x = p ++ y)%string → x = y.
Proof.
  induction p as [|c p IH]; simpl; [auto|]. intros [= H]. auto.
Qed.

Lemma LIKE_any text : LIKE_pattern "%" text = true.
Proof.
  induction text as [|a text IH]; [reflexivity|].
  simpl in *. exact IH.
Qed.

(** A prefix without special characters matches itself and nothing else. *)
Lemma LIKE_literal_prefix p q text :
  literal p = true →
  LIKE_pattern (p ++ q)%string (p ++ text)%string = LIKE_pattern q text.
Proof.
  induction p as [|c p IH]; [reflexivity|].
  intros H. cbn [literal] in H.
  apply andb_true_iff in H as [H Hp]. apply andb_true_iff in H as [H H3].
  apply andb_true_iff in H as [H1 H2].
  apply negb_true_iff in H1, H2, H3.
  simpl. rewrite H1, H2, H3. simpl. rewrite Ascii.eqb_refl. simpl. now apply IH.
Qed.

Lemma number_of_matches today n :
  literal today = true →
  LIKE (number_of today n) (todays_pattern today) = true.
Proof.
  intros H. unfold LIKE, number_of, todays_pattern.
  rewrite (LIKE_literal_prefix "KOT-") by reflexivity.
  rewrite (LIKE_literal_prefix today) by exact H.
  transitivity (LIKE_pattern "%" (LPAD (pretty n) 4 "0"));
    [exact (LIKE_literal_prefix "-" "%" _ eq_refl) | apply LIKE_any].
Qed.

(** ** Four digits *)

Lemma four_digits_checked :
  forallb (fun n => (read_digits 0 (LPAD (pretty (N.of_nat n)) 4 "0") =? N.of_nat n)%N)
    (seq 0 (N.to_nat 10000)) = true.
Proof. vm_compute. reflexivity. Qed.

(** Sequence numbers up to 9999 can be read back from their four digits. *)
Lemma four_digits_read_back n :
  (n < 10000)%N → read_digits 0 (LPAD (pretty n) 4 "0") = n.
Proof.
  intros Hn. pose proof four_digits_checked as H.
  rewrite forallb_forall in H. specialize (H (N.to_nat n)).
  rewrite N2Nat.id in H. apply N.eqb_eq, H, in_seq. lia.
Qed.

Lemma number_of_inj today i j :
  (i < 10000)%N → (j < 10000)%N →
  number_of today i = number_of today j → i = j.
Proof.
  intros Hi Hj H. unfold number_of in H.
  do 3 apply append_cancel_l in H.
  rewrite <- (four_digits_read_back i Hi), <- (four_digits_read_back j Hj).
  now rewrite H.
Qed.

(** The tenth thousand number is the thousandth again. *)
Lemma number_of_10000 today : number_of today 10000 = number_of today 1000.
Proof. reflexivity. Qed.

(** ** The count of the day *)

Lemma todays_count_snoc today s kots k :
  todays_count today s (kots ++ [k])
  = (todays_count today s kots
     + (if own s k && LIKE (kot_number k) (todays_pattern today) then 1 else 0))%N.
Proof.
  unfold todays_count, visible_kots.
  set (f := fun k0 : kot => LIKE (kot_number k0) (todays_pattern today)).
  change (LIKE (kot_number k) (todays_pattern today)) with (f k).
  rewrite !List.filter_app, length_app, Nat2N.inj_add. f_equal.
  cbn [List.filter]. destruct (own s k); cbn [List.filter andb]; [|reflexivity].
  destruct (f k); reflexivity.
Qed.

Lemma todays_count_all today s kots :
  (∀ k, k ∈ kots →
        own s k = true ∧ LIKE (kot_number k) (todays_pattern today) = true) →
  todays_count today s kots = N.of_nat (length kots).
Proof.
  intros H. unfold todays_count, visible_kots. f_equal.
  set (f := fun k0 : kot => LIKE (kot_number k0) (todays_pattern today)).
  induction kots as [|k kots IH]; [reflexivity|].
  destruct (H k) as [Ho Hl]; [apply list_elem_of_here|].
  cbn [List.filter]. rewrite Ho. cbn [List.filter].
  change (f k) with (LIKE (kot_number k) (todays_pattern today)). rewrite Hl.
  cbn [length]. f_equal. apply IH.
  intros k' Hk'. apply H. now apply list_elem_of_further.
Qed.

(** ** The tickets of one user *)

Lemma tickets_app today u first a b :
  tickets today u first (a ++ b)
  = tickets today u first a ++ tickets today u (first + N.of_nat (length a)) b.
Proof.
  revert first. induction a as [|id a IH]; intros first.
  - cbn [app tickets length]. f_equal. lia.
  - cbn [app tickets length]. rewrite IH. do 3 f_equal. lia.
Qed.

Lemma tickets_ids today u first ids :
  map kot_id (tickets today u first ids) = ids.
Proof.
  revert first. induction ids as [|id ids IH]; intros first; [reflexivity|].
  cbn [tickets map kot_id]. now rewrite IH.
Qed.

Lemma tickets_own_and_match today s u first ids k :
  literal today = true →
  auth_uid s = Some u →
  k ∈ tickets today u first ids →
  own s k = true ∧ LIKE (kot_number k) (todays_pattern today) = true.
Proof.
  intros Hlit Hu. revert first.
  induction ids as [|id ids IH]; intros first Hk.
  - now apply not_elem_of_nil in Hk.
  - cbn [tickets] in Hk. apply elem_of_cons in Hk as [-> | Hk]; [|eauto].
    unfold own. cbn [user_id kot_number]. rewrite Hu, N.eqb_refl.
    split; [reflexivity | now apply number_of_matches].
Qed.

(** ** Creating a ticket *)

(** What an INSERT comes to once the policy and the CHECK constraints are
    passed: the two uniqueness tests and the foreign key. *)
Lemma insert_kots_cases auth_users invoices s k kots :
  passes_policy_and_checks s k = true →
  insert_kots auth_users invoices s k kots
  = if existsb (fun k' => (kot_id k' =? kot_id k)%N) kots then Refused kots_pkey
    else if existsb (fun k' => String.eqb (kot_number k') (kot_number k)) kots
         then Refused kots_kot_number_key
         else if negb (user_id_exists auth_users k)
              then Refused kots_user_id_fkey
              else if negb (invoice_id_exists invoices k)
                   then Refused kots_invoice_id_fkey
                   else Done (kots ++ [k]).
Proof.
  unfold passes_policy_and_checks, insert_kots. intros H.
  apply andb_prop in H as [H Ht]. apply andb_prop in H as [H Hs].
  apply andb_prop in H as [H Hp]. apply andb_prop in H as [Ho Hc].
  now rewrite Ho, Hc, Hp, Hs, Ht.
Qed.

Lemma fresh_kot_id (id : uuid) (kots : list kot) :
  id ∉ map kot_id kots →
  existsb (fun k' => (kot_id k' =? id)%N) kots = false.
Proof.
  intros Hn. destruct (existsb _ kots) eqn:E; [|reflexivity]. exfalso.
  apply existsb_exists in E as (k' & Hin & Hk). apply N.eqb_eq in Hk.
  apply Hn. rewrite <- Hk. apply list_elem_of_In, in_map, Hin.
Qed.

Lemma number_in_table (number : string) (kots : list kot) k' :
  k' ∈ kots → kot_number k' = number →
  existsb (fun k' => String.eqb (kot_number k') number) kots = true.
Proof.
  intros Hin Hk. apply existsb_exists. exists k'.
  split; [now apply list_elem_of_In | now apply String.eqb_eq].
Qed.

(** The rows of another user are not counted. *)
Lemma todays_count_of_others today s kots :
  (∀ k, k ∈ kots → own s k = false) → todays_count today s kots = 0%N.
Proof.
  intros H. unfold todays_count, visible_kots.
  replace (List.filter (own s) kots) with (@nil kot); [reflexivity|].
  symmetry. induction kots as [|k kots IH]; [reflexivity|]. simpl.
  rewrite (H k) by apply list_elem_of_here. apply IH.
  intros k' Hk'. apply H. now apply list_elem_of_further.
Qed.

Lemma tickets_user today u first ids k :
  k ∈ tickets today u first ids → user_id k = u.
Proof.
  revert first. induction ids as [|id ids IH]; intros first Hk.
  - now apply not_elem_of_nil in Hk.
  - cbn [tickets] in Hk. apply elem_of_cons in Hk as [-> | Hk]; [reflexivity|eauto].
Qed.

Lemma tickets_lookup today u first ids (i : nat) id :
  ids !! i = Some id →
  ∃ k, k ∈ tickets today u first ids
       ∧ kot_number k = number_of today (first + N.of_nat i).
Proof.
  revert first i. induction ids as [|id' ids IH]; intros first i Hi; [discriminate|].
  destruct i as [|i]; cbn [tickets].
  - eexists. split; [apply list_elem_of_here|]. cbn [kot_number]. f_equal. lia.
  - destruct (IH (first + 1)%N i Hi) as (k & Hk & Hn).
    exists k. split; [now apply list_elem_of_further|]. rewrite Hn. f_equal. lia.
Qed.

(** X10.  A row inserted under the number the function has just generated,
    with a fresh id and existing references, which passes the policy and the
    CHECK constraints, while the numbers of the day in the table lie between
    1 and [n], [n] being the caller's own count and below 9999: the INSERT
    succeeds, the ticket has the number [n + 1] in four digits, and the
    table is in the same state for [n + 1].  Tickets created one after the
    other by one user thus get the numbers 0001, 0002, ... up to 9999. *)
Theorem next_ticket_gets_next_number auth_users invoices today s n k kots :
  literal today = true →
  passes_policy_and_checks s k = true →
  kot_number k = generate_kot_number today s kots →
  existsb (fun k' => (kot_id k' =? kot_id k)%N) kots = false →
  user_id_exists auth_users k = true →
  invoice_id_exists invoices k = true →
  numbered_up_to today s n kots →
  (n < 9999)%N →
  insert_kots auth_users invoices s k kots = Done (kots ++ [k])
  ∧ kot_number k = number_of today (n + 1)
  ∧ numbered_up_to today s (n + 1) (kots ++ [k]).
Proof.
  intros Hlit Hpass Hnum Hid Hu Hinv [Hcount Hrows] Hn.
  assert (Hgen : kot_number k = number_of today (n + 1))
    by (rewrite Hnum; unfold generate_kot_number; now rewrite Hcount).
  assert (Hown : own s k = true).
  { unfold passes_policy_and_checks in Hpass.
    now destruct (own s k). }
  rewrite (insert_kots_cases auth_users invoices s k kots Hpass), Hid.
  destruct (existsb (fun k' => String.eqb (kot_number k') (kot_number k)) kots)
    eqn:Hex.
  - exfalso. apply existsb_exists in Hex as (k' & Hin & Heq).
    apply String.eqb_eq in Heq. rewrite Hgen in Heq.
    destruct (Hrows k') as (i & Hi & Hk').
    + now apply list_elem_of_In.
    + rewrite Heq. now apply number_of_matches.
    + rewrite Heq in Hk'. apply number_of_inj in Hk'; lia.
  - rewrite Hu, Hinv. cbn [negb].
    split; [reflexivity|]. split; [exact Hgen|]. split.
    + rewrite todays_count_snoc, Hown, Hgen, number_of_matches by exact Hlit.
      cbn [andb]. lia.
    + intros k' Hk' Hm. apply elem_of_app in Hk' as [Hk' | Hk'].
      * destruct (Hrows k' Hk' Hm) as (i & Hi & Hk). exists i. split; [lia | exact Hk].
      * apply list_elem_of_singleton in Hk'. subst k'. exists (n + 1)%N.
        split; [lia | exact Hgen].
Qed.

Lemma next_ticket_gets_next_number_witness :
  insert_kots {[7%N]} ∅ clerk (dine_in_ticket 2%N "KOT-20251129-0002" 7%N)
    (tickets "20251129" 7%N 1 [1%N])
  = Done (tickets "20251129" 7%N 1 [1%N]
          ++ [dine_in_ticket 2%N "KOT-20251129-0002" 7%N])
  ∧ generate_kot_number "20251129" clerk (tickets "20251129" 7%N 1 [1%N])
    = "KOT-20251129-0002".
Proof.
  destruct (next_ticket_gets_next_number {[7%N]} ∅ "20251129" clerk 1
              (dine_in_ticket 2%N "KOT-20251129-0002" 7%N)
              (tickets "20251129" 7%N 1 [1%N])) as (H & _ & _).
  - vm_compute. reflexivity.
  - vm_compute. reflexivity.
  - vm_compute. reflexivity.
  - vm_compute. reflexivity.
  - vm_compute. reflexivity.
  - vm_compute. reflexivity.
  - split; [vm_compute; reflexivity|].
    intros k Hk _. apply list_elem_of_singleton in Hk. subst k.
    exists 1%N. split; [lia | reflexivity].
  - lia.
  - split; [exact H | vm_compute; reflexivity].
Defined.

(** X11.  The count is taken over the caller's own tickets, the uniqueness
    of [kot_number] over the whole table.  Once one user has tickets of the
    day, numbered from 1, a user who has none counts zero and is given the
    number 0001 again, and the INSERT of a row under that number, which
    passes the policy and the CHECK constraints, is refused by the
    uniqueness of [kot_number]. *)
Theorem other_users_first_ticket_is_refused auth_users invoices today s uA idsA k :
  idsA ≠ [] →
  user_id k ≠ uA →
  passes_policy_and_checks s k = true →
  kot_number k = generate_kot_number today s (tickets today uA 1 idsA) →
  kot_id k ∉ idsA →
  todays_count today s (tickets today uA 1 idsA) = 0%N
  ∧ kot_number k = number_of today 1
  ∧ insert_kots auth_users invoices s k (tickets today uA 1 idsA)
    = Refused kots_kot_number_key.
Proof.
  intros Hids Hne Hpass Hnum Hfresh.
  assert (Hown : own s k = true).
  { unfold passes_policy_and_checks in Hpass. now destruct (own s k). }
  assert (Hcount : todays_count today s (tickets today uA 1 idsA) = 0%N).
  { apply todays_count_of_others. intros k' Hk'.
    apply tickets_user in Hk'. unfold own in *.
    destruct (auth_uid s) as [u|]; [|reflexivity].
    apply N.eqb_eq in Hown. apply N.eqb_neq. congruence. }
  assert (Hgen : kot_number k = number_of today 1)
    by (rewrite Hnum; unfold generate_kot_number; now rewrite Hcount).
  split; [exact Hcount|]. split; [exact Hgen|].
  rewrite (insert_kots_cases auth_users invoices s k _ Hpass).
  rewrite fresh_kot_id by (now rewrite tickets_ids).
  destruct idsA as [|id idsA]; [congruence|].
  destruct (tickets_lookup today uA 1 (id :: idsA) 0 id eq_refl) as (k' & Hk' & Hn').
  rewrite (number_in_table (kot_number k) _ k' Hk'); [reflexivity|].
  now rewrite Hn', Hgen.
Qed.

Lemma other_users_first_ticket_is_refused_witness :
  generate_kot_number "20251129" {| CURRENT_DATE := 10; auth_uid := Some 8%N |}
    (tickets "20251129" 7%N 1 [1%N; 2%N])
  = "KOT-20251129-0001"
  ∧ insert_kots {[7%N; 8%N]} ∅ {| CURRENT_DATE := 10; auth_uid := Some 8%N |}
      (dine_in_ticket 3%N "KOT-20251129-0001" 8%N)
      (tickets "20251129" 7%N 1 [1%N; 2%N])
    = Refused kots_kot_number_key.
Proof.
  destruct (other_users_first_ticket_is_refused {[7%N; 8%N]} ∅ "20251129"
              {| CURRENT_DATE := 10; auth_uid := Some 8%N |} 7%N [1%N; 2%N]
              (dine_in_ticket 3%N "KOT-20251129-0001" 8%N)) as (_ & _ & H).
  - discriminate.
  - vm_compute. discriminate.
  - vm_compute. reflexivity.
  - vm_compute. reflexivity.
  - intros Hin. apply list_elem_of_In in Hin. simpl in Hin.
    destruct Hin as [Hin | [Hin | []]]; vm_compute in Hin; discriminate.
  - split; [vm_compute; reflexivity | exact H].
Defined.

(** X12.  After one user has created 9999 tickets in a day, numbered 0001
    to 9999, the count is 9999 and the next number, 10000, is cut by [LPAD]
    to its first four characters, 1000: the number of a ticket that is in
    the table, so that the INSERT of a row under it, which passes the policy
    and the CHECK constraints, is refused by the uniqueness of
    [kot_number]. *)
Theorem ten_thousandth_ticket_is_refused auth_users invoices today s u ids k :
  literal today = true →
  auth_uid s = Some u →
  length ids = N.to_nat 9999 →
  passes_policy_and_checks s k = true →
  kot_number k = generate_kot_number today s (tickets today u 1 ids) →
  kot_id k ∉ ids →
  todays_count today s (tickets today u 1 ids) = 9999%N
  ∧ kot_number k = ("KOT-" ++ today ++ "-1000")%string
  ∧ insert_kots auth_users invoices s k (tickets today u 1 ids)
    = Refused kots_kot_number_key.
Proof.
  intros Hlit Hu Hlen Hpass Hnum Hfresh.
  assert (Hcount : todays_count today s (tickets today u 1 ids) = 9999%N).
  { rewrite todays_count_all.
    - rewrite <- (length_map kot_id), tickets_ids, Hlen. reflexivity.
    - intros k' Hk'. eapply tickets_own_and_match; eassumption. }
  assert (Hgen : kot_number k = number_of today 1000).
  { rewrite Hnum. unfold generate_kot_number. rewrite Hcount.
    apply number_of_10000. }
  split; [exact Hcount|]. split; [rewrite Hgen; reflexivity|].
  rewrite (insert_kots_cases auth_users invoices s k _ Hpass).
  rewrite fresh_kot_id by (now rewrite tickets_ids).
  destruct (lookup_lt_is_Some_2 ids 999) as [id Hid]; [rewrite Hlen; lia|].
  destruct (tickets_lookup today u 1 ids 999 id Hid) as (k' & Hk' & Hn').
  rewrite (number_in_table (kot_number k) _ k' Hk'); [reflexivity|].
  rewrite Hn', Hgen. reflexivity.
Qed.

Lemma ten_thousandth_ticket_is_refused_witness :
  insert_kots {[7%N]} ∅ clerk (dine_in_ticket 0%N "KOT-20251129-1000" 7%N)
    (tickets "20251129" 7%N 1 (map N.of_nat (seq 1 (N.to_nat 9999))))
  = Refused kots_kot_number_key.
Proof.
  destruct (ten_thousandth_ticket_is_refused {[7%N]} ∅ "20251129" clerk 7%N
              (map N.of_nat (seq 1 (N.to_nat 9999)))
              (dine_in_ticket 0%N "KOT-20251129-1000" 7%N)) as (_ & _ & H).
  - vm_compute. reflexivity.
  - reflexivity.
  - vm_compute. reflexivity.
  - vm_compute. reflexivity.
  - vm_compute. reflexivity.
  - intros Hin. apply list_elem_of_In, in_map_iff in Hin as (x & Hx & Hin).
    apply in_seq in Hin. cbn [dine_in_ticket kot_id] in Hx. lia.
  - exact H.
Defined.

(** ** Deleting a ticket *)

Lemma delete_kots_absent today s u first ids id :
  id ∉ ids →
  delete_kots s id (tickets today u first ids) = tickets today u first ids.
Proof.
  revert first. induction ids as [|i ids IH]; intros first Hn; [reflexivity|].
  apply not_elem_of_cons in Hn as [Hne Hn].
  unfold delete_kots in *. cbn [tickets List.filter kot_id].
  replace (i =? id)%N with false by (symmetry; apply N.eqb_neq; congruence).
  cbn [andb negb]. f_equal. now apply IH.
Qed.

Lemma delete_kots_head today s u first ids id :
  auth_uid s = Some u →
  id ∉ ids →
  delete_kots s id (tickets today u first (id :: ids))
  = tickets today u (first + 1) ids.
Proof.
  intros Hu Hn. unfold delete_kots. cbn [tickets List.filter kot_id].
  unfold own at 1. cbn [user_id]. rewrite Hu, !N.eqb_refl. cbn [andb negb].
  now apply (delete_kots_absent today s u).
Qed.

(** The table after one of a user's tickets, not the last, is deleted. *)
Lemma delete_kots_middle today s u front id back last :
  auth_uid s = Some u →
  NoDup (front ++ id :: back ++ [last]) →
  delete_kots s id (tickets today u 1 (front ++ id :: back ++ [last]))
  = tickets today u 1 front
    ++ tickets today u (1 + N.of_nat (length front) + 1) back
    ++ tickets today u (1 + N.of_nat (length front) + 1 + N.of_nat (length back))
         [last].
Proof.
  intros Hu Hnd. apply NoDup_app in Hnd as (_ & Hfront & Hrest).
  apply NoDup_cons in Hrest as [Hrest _].
  rewrite tickets_app. unfold delete_kots at 1. rewrite List.filter_app.
  fold (delete_kots s id (tickets today u 1 front)).
  fold (delete_kots s id (tickets today u (1 + N.of_nat (length front))
                            (id :: back ++ [last]))).
  rewrite (delete_kots_absent today s u).
  - rewrite (delete_kots_head today s u) by assumption.
    now rewrite tickets_app.
  - intros Hin. apply (Hfront id Hin). apply list_elem_of_here.
Qed.

(** X13.  After a user has deleted one of the day's tickets other than the
    last one, the count of the day falls by one while the last number stays
    in the table: the number generated next is that last number again, and
    the INSERT of a row under it, which passes the policy and the CHECK
    constraints, is refused by the uniqueness of [kot_number]. *)
Theorem deleting_a_ticket_blocks_the_day auth_users invoices today s u front id back
    last k :
  literal today = true →
  auth_uid s = Some u →
  NoDup (front ++ id :: back ++ [last]) →
  passes_policy_and_checks s k = true →
  kot_number k
  = generate_kot_number today s
      (delete_kots s id (tickets today u 1 (front ++ id :: back ++ [last]))) →
  kot_id k ∉ front ++ id :: back ++ [last] →
  todays_count today s
    (delete_kots s id (tickets today u 1 (front ++ id :: back ++ [last])))
  = N.of_nat (length (front ++ back ++ [last]))
  ∧ kot_number k
    = number_of today (N.of_nat (length (front ++ id :: back ++ [last])))
  ∧ insert_kots auth_users invoices s k
      (delete_kots s id (tickets today u 1 (front ++ id :: back ++ [last])))
    = Refused kots_kot_number_key.
Proof.
  intros Hlit Hu Hnd Hpass Hnum Hnew. revert Hnum.
  rewrite (delete_kots_middle today s u) by assumption.
  set (kots := tickets today u 1 front
               ++ tickets today u (1 + N.of_nat (length front) + 1) back
               ++ tickets today u
                    (1 + N.of_nat (length front) + 1 + N.of_nat (length back))
                    [last]).
  intros Hnum.
  assert (Hcount : todays_count today s kots
                   = N.of_nat (length front + length back + 1)).
  { rewrite todays_count_all.
    - unfold kots. rewrite !length_app.
      rewrite <- !(length_map kot_id), !tickets_ids. cbn [length]. f_equal. lia.
    - intros k' Hk. unfold kots in Hk.
      apply elem_of_app in Hk as [Hk | Hk];
        [|apply elem_of_app in Hk as [Hk | Hk]];
        eapply tickets_own_and_match; eassumption. }
  assert (Hgen : kot_number k
                 = number_of today
                     (1 + N.of_nat (length front) + 1 + N.of_nat (length back))).
  { rewrite Hnum. unfold generate_kot_number. rewrite Hcount. f_equal. lia. }
  assert (Hlen : N.of_nat (length (front ++ id :: back ++ [last]))
                 = (1 + N.of_nat (length front) + 1 + N.of_nat (length back))%N).
  { rewrite length_app. cbn [length]. rewrite length_app. cbn [length]. lia. }
  split; [|split; [now rewrite Hgen, Hlen|]].
  { rewrite Hcount. f_equal. rewrite !length_app. cbn [length]. lia. }
  rewrite (insert_kots_cases auth_users invoices s k kots Hpass).
  rewrite fresh_kot_id.
  - destruct (tickets_lookup today u
                (1 + N.of_nat (length front) + 1 + N.of_nat (length back))
                [last] 0 last eq_refl) as (k' & Hk' & Hn').
    rewrite (number_in_table (kot_number k) kots k'); [reflexivity | |].
    + unfold kots. apply elem_of_app. right. apply elem_of_app. now right.
    + rewrite Hn', Hgen. f_equal. lia.
  - intros Hin. apply Hnew. unfold kots in Hin.
    rewrite !map_app, !tickets_ids in Hin.
    apply elem_of_app in Hin as [H | H]; [apply elem_of_app; now left|].
    apply elem_of_app. right. apply list_elem_of_further. exact H.
Qed.

Lemma deleting_a_ticket_blocks_the_day_witness :
  insert_kots {[7%N]} ∅ clerk (dine_in_ticket 4%N "KOT-20251129-0003" 7%N)
    (delete_kots clerk 1%N (tickets "20251129" 7%N 1 [1%N; 2%N; 3%N]))
  = Refused kots_kot_number_key.
Proof.
  destruct (deleting_a_ticket_blocks_the_day {[7%N]} ∅ "20251129" clerk 7%N
              [] 1%N [2%N] 3%N (dine_in_ticket 4%N "KOT-20251129-0003" 7%N))
    as (_ & _ & H).
  - vm_compute. reflexivity.
  - reflexivity.
  - apply NoDup_ListNoDup. repeat constructor; simpl; intuition discriminate.
  - vm_compute. reflexivity.
  - vm_compute. reflexivity.
  - intros H. apply list_elem_of_In in H. simpl in H.
    cbn [dine_in_ticket kot_id] in H. intuition discriminate.
  - exact H.
Defined.

(** * The first inventory migration, and racing callers *)

(** X14.  The trigger body of the first inventory migration, which the
    consolidated schema file still carries, logs every change of quantity,
    a decrease included, as one 'adjustment' with the note 'Stock level
    updated', and writes no snapshot at all. *)
Theorem first_migration_logs_adjustments_only s id OLD NEW db :
  is_Some (products db !! id) →
  - int4_max ≤ quantity NEW - quantity OLD ≤ int4_max →
  ∃ db',
    Consolidated.log_inventory_change s TG_UPDATE id OLD NEW db = Ok db'
    ∧ products db' = products db
    ∧ daily_inventory_snapshots db' = daily_inventory_snapshots db
    ∧ inventory_history db'
      = inventory_history db
        ++ (if quantity OLD =? quantity NEW then []
            else [ {| ih_product_id := id;
                      activity_type := "adjustment";
                      quantity_before := quantity OLD;
                      quantity_change := quantity NEW - quantity OLD;
                      quantity_after := quantity NEW;
                      reference_type := Some "manual";
                      reference_id := None;
                      notes := Some "Stock level updated";
                      created_by := auth_uid s |} ]).
Proof.
  intros [x Hx] Hr. unfold Consolidated.log_inventory_change.
  destruct (quantity OLD =? quantity NEW); simpl.
  - exists db. rewrite app_nil_r. auto.
  - rewrite int4mi_Ok by exact Hr. simpl.
    unfold insert_inventory_history. simpl. rewrite Hx.
    eexists. repeat split.
Qed.

Lemma first_migration_logs_adjustments_only_witness :
  ∃ db',
    Consolidated.log_inventory_change clerk TG_UPDATE flour (stocked 120) (stocked 90)
      after_receipt = Ok db'
    ∧ daily_inventory_snapshots db' = daily_inventory_snapshots after_receipt
    ∧ map activity_type (inventory_history db') = ["adjustment"; "adjustment"].
Proof.
  destruct (first_migration_logs_adjustments_only clerk flour (stocked 120) (stocked 90)
              after_receipt) as (db' & E & _ & Hs & Hh).
  - vm_compute. eauto.
  - vm_compute. split; discriminate.
  - exists db'. split; [exact E|]. split; [exact Hs|]. rewrite Hh. reflexivity.
Defined.

(** X15.  When two callers of the procedure both read that the product has
    no snapshot for the day and then both write, the first insertion creates
    the row and the second is refused by the UNIQUE constraint: the table
    ends with the one row of the first caller, and the magnitude of the
    second is recorded nowhere. *)
Theorem racing_first_upserts_keep_one d db p pr t1 m1 t2 m2 :
  products db !! p = Some pr →
  snapshot_for p d db = None →
  daily_inventory_snapshots
    (fst (run_schedule d [0; 1; 0; 1]%nat db
            [Some {| c_product_id := p; c_activity_type := t1; c_quantity := m1;
                     c_snapshot_exists := None |};
             Some {| c_product_id := p; c_activity_type := t2; c_quantity := m2;
                     c_snapshot_exists := None |}]))
  = daily_inventory_snapshots db ++ [new_snapshot_row p d t1 m1 pr].
Proof.
  intros Hp Hs. apply existsb_find_none in Hs.
  cbn [run_schedule lookup list_lookup caller_step c_snapshot_exists
       c_product_id c_activity_type c_quantity insert list_insert].
  rewrite Hs.
  cbn [run_schedule lookup list_lookup caller_step c_snapshot_exists
       c_product_id c_activity_type c_quantity insert list_insert].
  unfold update_daily_snapshot_branches at 1. rewrite Hp.
  unfold insert_daily_inventory_snapshot at 1.
  cbn [ds_product_id snapshot_date new_snapshot_row]. rewrite Hs, Hp.
  cbn [run_schedule lookup list_lookup caller_step c_snapshot_exists
       c_product_id c_activity_type c_quantity insert list_insert].
  unfold update_daily_snapshot_branches. cbn [products]. rewrite Hp.
  unfold insert_daily_inventory_snapshot.
  cbn [ds_product_id snapshot_date new_snapshot_row daily_inventory_snapshots].
  rewrite existsb_app. cbn [existsb].
  rewrite Hs, (new_snapshot_row_matches p d t1 m1 pr). reflexivity.
Qed.

Lemma racing_first_upserts_keep_one_witness :
  map purchases
    (daily_inventory_snapshots
       (fst (run_schedule 10 [0; 1; 0; 1]%nat day_start
               [Some (purchase_of 5); Some (purchase_of 3)])))
  = [5].
Proof.
  assert (H1 : products day_start !! flour = Some (stocked 100))
    by (vm_compute; reflexivity).
  assert (H2 : snapshot_for flour 10 day_start = None)
    by (vm_compute; reflexivity).
  exact (f_equal (map purchases)
           (racing_first_upserts_keep_one 10 day_start flour (stocked 100)
              "purchase" 5 "purchase" 3 H1 H2)).
Defined.
